(** * MapCubed: an ordered, homogeneity-checked collection of maps

    A shallow embedding of [sunpy/map/mapcubed.py].  Python exceptions are
    values of [exn] carried by the [result] monad; numpy arrays are a shape
    together with an indexing function; a metadata header is a finite map
    from strings to header values. *)

From stdpp Require Import base option list strings gmap sorting.
From Stdlib Require Import ZArith Permutation.
From Stdlib Require QArith.

Set Warnings "-register-all".

Local Open Scope string_scope.
Local Open Scope list_scope.
Local Open Scope Z_scope.

(** ** Exceptions and fallible computations *)

Inductive exn : Type :=
| ValueError (msg : string)
| IndexError (msg : string)
| KeyError (key : string)
| AxisError (msg : string)
| TypeError (msg : string).

Inductive result (A : Type) : Type :=
| Ok (a : A)
| Raise (e : exn).

Arguments Ok {A} a.
Arguments Raise {A} e.

#[global] Instance result_ret : MRet result := fun A a => Ok a.

#[global] Instance result_bind : MBind result := fun A B k r =>
  match r with
  | Ok a => k a
  | Raise e => Raise e
  end.

(** [for x in l: acc = body(acc, x)], stopping at the first exception. *)
Fixpoint for_each {A S : Type} (body : S -> A -> result S) (l : list A) (s : S)
  : result S :=
  match l with
  | [] => Ok s
  | x :: l' => s' ← body s x; for_each body l' s'
  end.

(** [[f(x) for x in l]], stopping at the first exception. *)
Fixpoint comprehension {A B : Type} (f : A -> result B) (l : list A)
  : result (list B) :=
  match l with
  | [] => Ok []
  | x :: l' => y ← f x; ys ← comprehension f l'; Ok (y :: ys)
  end.

(** ** Python sequence indexing *)

Definition index_error : exn := IndexError "list index out of range".

(** [l[i]] for an integer [i]: negative indices count from the end. *)
Definition py_getitem {A : Type} (l : list A) (i : Z) : result A :=
  let n := Z.of_nat (length l) in
  let j := if i <? 0 then i + n else i in
  if j <? 0 then Raise index_error
  else match l !! Z.to_nat j with
       | Some x => Ok x
       | None => Raise index_error
       end.

(** [range(0, n)] over the integers; empty when [n <= 0]. *)
Definition py_range (n : Z) : list Z := Z.of_nat <$> seq 0 (Z.to_nat n).

(** A slice object [start:stop:step]; [None] is an omitted component. *)
Record slice : Type := Slice {
  slice_start : option Z;
  slice_stop : option Z;
  slice_step : option Z
}.

(** [slice.indices(length)]: the normalised start, stop and step. *)
Definition slice_indices (s : slice) (len : Z) : result (Z * Z * Z) :=
  let step := default 1 (slice_step s) in
  if step =? 0 then Raise (ValueError "slice step cannot be zero")
  else
    let lower := if step <? 0 then -1 else 0 in
    let upper := if step <? 0 then len - 1 else len in
    let clamp (v : Z) :=
      if v <? 0 then Z.max (v + len) lower else Z.min v upper in
    let start :=
      match slice_start s with
      | None => if step <? 0 then upper else lower
      | Some v => clamp v
      end in
    let stop :=
      match slice_stop s with
      | None => if step <? 0 then lower else upper
      | Some v => clamp v
      end in
    Ok (start, stop, step).

(** The indices visited by [range(start, stop, step)], at most [fuel] many. *)
Fixpoint range_from (fuel : nat) (start stop step : Z) : list Z :=
  match fuel with
  | O => []
  | S fuel' =>
    if (if step <? 0 then stop <? start else start <? stop)
    then start :: range_from fuel' (start + step) stop step
    else []
  end.

(** [l[s]] for a slice [s]. *)
Definition py_getslice {A : Type} (l : list A) (s : slice) : result (list A) :=
  let len := Z.of_nat (length l) in
  '(start, stop, step) ← slice_indices s len;
  Ok (omap (fun i => l !! Z.to_nat i) (range_from (length l) start stop step)).

(** ** Stable sorting by an integer key: [list.sort(key=k)] *)

Section Sorting.
Context {A : Type} (k : A -> Z).

Fixpoint insert_by (x : A) (l : list A) : list A :=
  match l with
  | [] => [x]
  | y :: l' => if k x <=? k y then x :: y :: l' else y :: insert_by x l'
  end.

Fixpoint sort_by (l : list A) : list A :=
  match l with
  | [] => []
  | x :: l' => insert_by x (sort_by l')
  end.

(** Nondecreasing keys along the list. *)
Definition sorted_by (l : list A) : Prop :=
  StronglySorted (fun a b => k a <= k b) l.
End Sorting.

(** ** Numeric arrays *)

(** The element type of the image arrays with the two operations the cube
    algebra uses; [sone] is the literal [1.0], and dividing by it leaves a
    value unchanged. *)
Class Scalar (T : Type) : Type := {
  szero : T;
  sone : T;
  ssub : T -> T -> T;
  sdiv : T -> T -> T;
  sdiv_one : forall x : T, sdiv x sone = x
}.

Section Arrays.
Context {T : Type} `{ST : Scalar T}.

(** A 2-D [numpy.ndarray]: [a.shape] and [a[y, x]]. *)
Record ndarray : Type := NdArray {
  shape : nat * nat;
  item : nat -> nat -> T
}.

(** A 3-D [numpy.ndarray]: [a.shape] and [a[p, q, r]]. *)
Record ndarray3 : Type := NdArray3 {
  shape3 : nat * nat * nat;
  item3 : nat -> nat -> nat -> T
}.

(** numpy broadcasting of one axis: equal lengths, or one of them is 1. *)
Definition broadcast_dim (d1 d2 : nat) : option nat :=
  if decide (d1 = d2) then Some d1
  else if decide (d1 = 1%nat) then Some d2
  else if decide (d2 = 1%nat) then Some d1
  else None.

Definition broadcast_shapes (s1 s2 : nat * nat) : option (nat * nat) :=
  r ← broadcast_dim s1.1 s2.1;
  c ← broadcast_dim s1.2 s2.2;
  Some (r, c).

(** The index read on an axis of length [d] when it is stretched. *)
Definition stretch (d i : nat) : nat := if decide (d = 1%nat) then 0%nat else i.

Definition broadcast_item (a : ndarray) (y x : nat) : T :=
  item a (stretch (shape a).1 y) (stretch (shape a).2 x).

(** An elementwise binary operator on two arrays, [a - b] or [a / b]. *)
Definition np_binop (f : T -> T -> T) (a b : ndarray) : result ndarray :=
  match broadcast_shapes (shape a) (shape b) with
  | Some s =>
    Ok {| shape := s;
          item := fun y x => f (broadcast_item a y x) (broadcast_item b y x) |}
  | None => Raise (ValueError "operands could not be broadcast together")
  end.

Definition np_subtract : ndarray -> ndarray -> result ndarray := np_binop ssub.

(** The right operand of [/]: an array or a Python float. *)
Inductive operand : Type :=
| OArray (b : ndarray)
| OFloat (s : T).

Definition np_true_divide (a : ndarray) (r : operand) : result ndarray :=
  match r with
  | OArray b => np_binop sdiv a b
  | OFloat s =>
    Ok {| shape := shape a; item := fun y x => sdiv (item a y x) s |}
  end.

(** What [np.asarray] makes of a list of 2-D arrays: the empty list gives
    a 1-D array of length 0, equally shaped arrays are stacked along a new
    leading axis. *)
Inductive stacked : Type :=
| Stack1 (len : nat)
| Stack3 (v : ndarray3).

Definition np_asarray (l : list ndarray) : result stacked :=
  match l with
  | [] => Ok (Stack1 0)
  | a0 :: _ =>
    if forallb (fun a => bool_decide (shape a = shape a0)) l
    then Ok (Stack3 {|
      shape3 := (length l, (shape a0).1, (shape a0).2);
      item3 := fun t y x =>
        match l !! t with
        | Some a => item a y x
        | None => szero
        end |})
    else Raise (ValueError "setting an array element with a sequence.")
  end.

(** Exchange two of three axes. *)
Definition swap3 {X : Type} (i j : nat) (t : X * X * X) : option (X * X * X) :=
  let '(a, b, c) := t in
  match i, j with
  | 0%nat, 0%nat | 1%nat, 1%nat | 2%nat, 2%nat => Some (a, b, c)
  | 0%nat, 1%nat | 1%nat, 0%nat => Some (b, a, c)
  | 0%nat, 2%nat | 2%nat, 0%nat => Some (c, b, a)
  | 1%nat, 2%nat | 2%nat, 1%nat => Some (a, c, b)
  | _, _ => None
  end.

Definition axis_error : exn := AxisError "axis is out of bounds for array".

(** [np.swapaxes(a, i, j)] followed by [.copy()]. *)
Definition np_swapaxes (a : stacked) (i j : nat) : result stacked :=
  match a with
  | Stack1 len =>
    match i, j with
    | 0%nat, 0%nat => Ok (Stack1 len)
    | _, _ => Raise axis_error
    end
  | Stack3 v =>
    match swap3 i j (shape3 v) with
    | Some s =>
      Ok (Stack3 {|
        shape3 := s;
        item3 := fun p q r =>
          match swap3 i j (p, q, r) with
          | Some (p', q', r') => item3 v p' q' r'
          | None => szero
          end |})
    | None => Raise axis_error
    end
  end.

(** [vol[:, :, i] = a], the assignment broadcasting [a] to the slice. *)
Definition assign_frame (vol : ndarray3) (i : nat) (a : ndarray)
  : result ndarray3 :=
  let '(rows, cols, _) := shape3 vol in
  let fits (d target : nat) := bool_decide (d = target) || bool_decide (d = 1%nat) in
  if fits (shape a).1 rows && fits (shape a).2 cols
  then Ok {| shape3 := shape3 vol;
             item3 := fun y x t =>
               if decide (t = i) then broadcast_item a y x
               else item3 vol y x t |}
  else Raise (ValueError "could not broadcast input array").

(** [r] has the shape of [a] and holds [f a[y, x] b[y, x]] at every pixel. *)
Definition elementwise (f : T -> T -> T) (r a b : ndarray) : Prop :=
  shape r = shape a /\
  forall y x : nat,
    (y < (shape a).1)%nat -> (x < (shape a).2)%nat ->
    item r y x = f (item a y x) (item b y x).
End Arrays.

Arguments ndarray T : clear implicits.
Arguments ndarray3 T : clear implicits.
Arguments operand T : clear implicits.
Arguments stacked T : clear implicits.

(** ** Maps and the objects handed to the constructor *)

(** Modelled from the spec: [GenericMap], the single-frame image, is not
    among the sources.  It is "a single 2-D scientific image plus its
    capture metadata", the metadata mapping (string keys, scalar values)
    "including capture timestamp ... pixel scale": a map is its array and
    its header. *)
Record GenericMap (T V : Type) : Type := {
  data : ndarray T;
  meta : gmap string V
}.

Arguments data {T V} _.
Arguments meta {T V} _.

(** Modelled from the spec: what the cube consumes from a map besides [data]
    and [meta]: the timestamp and the pixel scale, both read off the header,
    and the frame-level transforms [submap], [superpixel] and [resample],
    which may raise. *)
Class FrameOps (T V : Type) : Type := {
  Scale : Type;
  Scale_eq_dec :: EqDecision Scale;
  Range : Type;
  Dims : Type;
  Method : Type;
  date_of : gmap string V -> Z;
  scale_of : gmap string V -> Scale;
  frame_submap : GenericMap T V -> Range -> Range -> result (GenericMap T V);
  frame_superpixel : GenericMap T V -> Dims -> Method -> result (GenericMap T V);
  frame_resample : GenericMap T V -> Dims -> Method -> result (GenericMap T V)
}.

Section MapCube.
Context {T : Type} `{ST : Scalar T}.
Context {V : Type} `{EqV : EqDecision V}.
Context `{FO : FrameOps T V}.

(** A FITS-like header: string keys, scalar values. *)
Abbreviation header := (gmap string V).
Abbreviation GMap := (GenericMap T V).

(** [m.date] and [m.scale]. *)
Definition date (m : GMap) : Z := date_of (meta m).
Definition scale (m : GMap) : Scale := scale_of (meta m).

(** Modelled from the spec: the factory [Map(data, header)], "a
    Frame-construction factory: make_frame(array_or_scalar, metadata) ->
    Frame". *)
Definition Map (new_data : ndarray T) (new_meta : header) : GMap :=
  {| data := new_data; meta := new_meta |}.

(** [deepcopy(m)]: maps are values here, a copy is the map itself. *)
Definition deepcopy (m : GMap) : GMap := m.

(** A positional argument: a map, a list or tuple of arguments, or some
    other Python object. *)
Inductive pyobj : Type :=
| PyMap (m : GMap)
| PySeq (items : list pyobj)
| PyOther (repr : string).

(** Modelled from the spec: [sunpy.util.expand_list] is not among the
    sources.  The collection is "created from a caller-supplied sequence of
    Frames", passed as positional arguments or as one list of them:
    lists and tuples are flattened, every other item is kept. *)
Fixpoint expand_list_generator (o : pyobj) : list pyobj :=
  match o with
  | PySeq items =>
    (fix go (l : list pyobj) : list pyobj :=
       match l with
       | [] => []
       | x :: l' => expand_list_generator x ++ go l'
       end) items
  | _ => [o]
  end.

Definition expand_list (input : list pyobj) : list pyobj :=
  flat_map expand_list_generator input.

(** A keyword-argument value. *)
Inductive kwval : Type :=
| KwNone
| KwStr (s : string)
| KwBool (b : bool).

(** ** The cube *)

Record MapCubed : Type := {
  _maps : list GMap;
  _meta : list header
}.

(** The loop [for m in maps: if not isinstance(m, GenericMap): raise]. *)
Fixpoint check_maps (maps : list pyobj) : result (list GMap) :=
  match maps with
  | [] => Ok []
  | PyMap m :: rest => ms ← check_maps rest; Ok (m :: ms)
  | _ :: _ => Raise (ValueError "MapCubed expects pre-constructed map objects.")
  end.

(** [_sort_by_date()]: the key [lambda m: m.date]. *)
Definition _sort_by_date : GMap -> Z := fun m => date m.

(** [np.all([m.data.shape == maps[0].data.shape for m in maps])]; on the
    empty list the comprehension never reads [maps[0]]. *)
Definition same_shape_as_first (maps : list GMap) : bool :=
  match maps with
  | [] => true
  | m0 :: _ =>
    forallb (fun m => bool_decide (shape (data m) = shape (data m0))) maps
  end.

(** [np.all([m.scale == maps[0].scale for m in maps])]. *)
Definition same_scale_as_first (maps : list GMap) : bool :=
  match maps with
  | [] => true
  | m0 :: _ => forallb (fun m => bool_decide (scale m = scale m0)) maps
  end.

Definition shape_error : exn :=
  ValueError "All Map data must have the same dimensions".
Definition scale_error : exn :=
  ValueError "All Map data must have the same scale".

(** [MapCubed.__init__(self, *args, **kwargs)]. *)
Definition MapCubed_init (args : list pyobj) (kwargs : gmap string kwval)
  : result MapCubed :=
  let orderby := default (KwStr "date") (kwargs !! "orderby") in
  let derotate := default (KwBool false) (kwargs !! "derotate") in
  let maps := expand_list args in
  maps ← check_maps maps;
  let maps := sort_by _sort_by_date maps in
  if negb (same_shape_as_first maps) then Raise shape_error
  else if negb (same_scale_as_first maps) then Raise scale_error
  else Ok {| _maps := maps; _meta := meta <$> maps |}.

(** [MapCubed(new_maps)]: one positional argument, a list of maps. *)
Definition MapCubed_of_list (new_maps : list GMap) : result MapCubed :=
  MapCubed_init [PySeq (PyMap <$> new_maps)] ∅.

(** [len(self)]. *)
Definition MapCubed_len (self : MapCubed) : nat := length (_maps self).

(** An index: an integer or a slice. *)
Inductive key : Type :=
| KInt (i : Z)
| KSlice (s : slice).

(** The result of indexing: one map, or a cube. *)
Inductive indexed : Type :=
| OneMap (m : GMap)
| SubCube (c : MapCubed).

(** [MapCubed.__getitem__(self, key)]. *)
Definition MapCubed_getitem (self : MapCubed) (k : key) : result indexed :=
  match k with
  | KInt i => m ← py_getitem (_maps self) i; Ok (OneMap m)
  | KSlice s =>
    l ← py_getslice (_maps self) s;
    c ← MapCubed_of_list l;
    Ok (SubCube c)
  end.

(** What [meta] hands back: a Python object that is a header value or a
    list of header values. *)
Inductive meta_return : Type :=
| AValue (v : V)
| AList (vs : list V).

(** [MapCubed.meta(self, key)]. *)
Definition MapCubed_meta (self : MapCubed) (k : string) : result meta_return :=
  values ← comprehension
    (fun h : header =>
       match h !! k with
       | Some v => Ok v
       | None => Raise (KeyError k)
       end) (_meta self);
  same ← comprehension
    (fun r => r0 ← py_getitem values 0; Ok (bool_decide (r = r0))) values;
  if forallb id same
  then r0 ← py_getitem values 0; Ok (AList [r0])
  else Ok (AList values).

(** [MapCubed.submap(self, range_a, range_b)]. *)
Definition MapCubed_submap (self : MapCubed) (range_a range_b : Range)
  : result MapCubed :=
  new_maps ← comprehension
    (fun m => let new_map := deepcopy m in frame_submap new_map range_a range_b)
    (_maps self);
  MapCubed_of_list new_maps.

(** [MapCubed.superpixel(self, dimensions, method)]. *)
Definition MapCubed_superpixel (self : MapCubed) (dimensions : Dims)
  (method : Method) : result MapCubed :=
  new_maps ← comprehension
    (fun m => let new_map := deepcopy m in
              frame_superpixel new_map dimensions method)
    (_maps self);
  MapCubed_of_list new_maps.

(** [MapCubed.resample(self, dimensions, method)]. *)
Definition MapCubed_resample (self : MapCubed) (dimensions : Dims)
  (method : Method) : result MapCubed :=
  new_maps ← comprehension
    (fun m => frame_resample m dimensions method) (_maps self);
  MapCubed_of_list new_maps.

(** [MapCubed.all_maps_same_shape(self)]. *)
Definition all_maps_same_shape (self : MapCubed) : bool :=
  same_shape_as_first (_maps self).

(** [MapCubed.as_array(self)]. *)
Definition MapCubed_as_array (self : MapCubed) : result (stacked T) :=
  if all_maps_same_shape self
  then
    a ← np_asarray (data <$> _maps self);
    a ← np_swapaxes a 0 1;
    np_swapaxes a 1 2
  else Raise (ValueError "Not all maps have the same shape.").

(** The property [MapCubed.data]. *)
Definition MapCubed_data (self : MapCubed) : result (ndarray3 T) :=
  m0 ← py_getitem (_maps self) 0;
  let zeros := {| shape3 := ((shape (data m0)).1, (shape (data m0)).2,
                             MapCubed_len self);
                  item3 := fun _ _ _ => szero |} in
  for_each (fun vol '(i, m) => assign_frame vol i (data m))
    (zip (seq 0 (MapCubed_len self)) (_maps self)) zeros.

(** [MapCubed.all_meta(self)]. *)
Definition MapCubed_all_meta (self : MapCubed) : list header :=
  meta <$> _maps self.

Definition quote : string := String (Ascii.ascii_of_nat 34) EmptyString.

Definition keyword_error : exn :=
  ValueError ("The value of the keyword " +:+ quote +:+ "use_offset_for_meta"
              +:+ quote +:+ " has not been recognized.").

(** The defaults of [running_difference(self, offset=1,
    use_offset_for_meta='mean')]. *)
Definition default_offset : Z := 1.
Definition default_use_offset_for_meta : string := "mean".

(** One pass of the loop body of [running_difference] at index [i]. *)
Definition running_difference_step (self : MapCubed) (offset : Z)
  (use_offset_for_meta : string) (new_mc : list GMap) (i : Z)
  : result (list GMap) :=
  ahead ← py_getitem (_maps self) (i + offset);
  behind ← py_getitem (_maps self) i;
  new_data ← np_subtract (data ahead) (data behind);
  new_meta ←
    (if decide (use_offset_for_meta = "ahead")
     then m ← py_getitem (_maps self) (i + offset); Ok (meta m)
     else if decide (use_offset_for_meta = "behind")
     then m ← py_getitem (_maps self) i; Ok (meta m)
     else Raise keyword_error);
  Ok (new_mc ++ [Map new_data new_meta]).

(** [MapCubed.running_difference(self, offset, use_offset_for_meta)]. *)
Definition MapCubed_running_difference (self : MapCubed) (offset : Z)
  (use_offset_for_meta : string) : result MapCubed :=
  new_mc ← for_each (running_difference_step self offset use_offset_for_meta)
    (py_range (Z.of_nat (length (_maps self)) - offset)) [];
  MapCubed_of_list new_mc.

(** The [base] argument: an index into the cube or a map. *)
Inductive base_arg : Type :=
| BaseIndex (i : Z)
| BaseMap (m : GMap).

Definition base_shape_error : exn :=
  ValueError
    "Base map does not have the same shape as the maps in the input mapcube.".

(** One pass of the loop body of [base_difference] at map [m]. *)
Definition base_difference_step (base_data : ndarray T) (relative : operand T)
  (new_mc : list GMap) (m : GMap) : result (list GMap) :=
  diff ← np_subtract (data m) base_data;
  new_data ← np_true_divide diff relative;
  Ok (new_mc ++ [Map new_data (meta m)]).

(** [self[base].data] when [base] is not a map, [base.data] when it is. *)
Definition base_data_of (self : MapCubed) (base : base_arg)
  : result (ndarray T) :=
  match base with
  | BaseIndex i => m ← py_getitem (_maps self) i; Ok (data m)
  | BaseMap m => Ok (data m)
  end.

(** [MapCubed.base_difference(self, base=0, fraction=False)]; [for m in
    self] walks [self[0]], [self[1]], ... and so the list [_maps]. *)
Definition MapCubed_base_difference (self : MapCubed) (base : base_arg)
  (fraction : bool) : result MapCubed :=
  base_data ← base_data_of self base;
  first ← py_getitem (_maps self) 0;
  if bool_decide (shape base_data ≠ shape (data first))
  then Raise base_shape_error
  else
    let relative := if fraction then OArray base_data else OFloat sone in
    new_mc ← for_each (base_difference_step base_data relative) (_maps self) [];
    MapCubed_of_list new_mc.

(** ** The cube invariants *)

(** All maps share one 2-D shape. *)
Definition uniform_shape (maps : list GMap) : Prop :=
  forall m1 m2, m1 ∈ maps -> m2 ∈ maps -> shape (data m1) = shape (data m2).

(** All maps share one pixel scale. *)
Definition uniform_scale (maps : list GMap) : Prop :=
  forall m1 m2, m1 ∈ maps -> m2 ∈ maps -> scale m1 = scale m2.

(** The header list is index-aligned with the map list. *)
Definition aligned (c : MapCubed) : Prop :=
  forall i : nat, _meta c !! i = meta <$> (_maps c !! i).

Record cube_inv (c : MapCubed) : Prop := {
  inv_shape : uniform_shape (_maps c);
  inv_scale : uniform_scale (_maps c);
  inv_aligned : aligned c;
  inv_sorted : sorted_by date (_maps c)
}.

(** [derived c c']: the cube [c'] is returned by one of the operations of
    [c] that build a new cube. *)
Inductive derived (c : MapCubed) : MapCubed -> Prop :=
| derived_submap range_a range_b c' :
    MapCubed_submap c range_a range_b = Ok c' -> derived c c'
| derived_superpixel dimensions method c' :
    MapCubed_superpixel c dimensions method = Ok c' -> derived c c'
| derived_resample dimensions method c' :
    MapCubed_resample c dimensions method = Ok c' -> derived c c'
| derived_running_difference offset use_offset_for_meta c' :
    MapCubed_running_difference c offset use_offset_for_meta = Ok c' ->
    derived c c'
| derived_base_difference base fraction c' :
    MapCubed_base_difference c base fraction = Ok c' -> derived c c'
| derived_slice s c' :
    MapCubed_getitem c (KSlice s) = Ok (SubCube c') -> derived c c'.

(** ** What the difference operations compute *)

(** The header picked for a difference of [a] (ahead) and [b] (behind). *)
Definition picked_meta (use_offset_for_meta : string) (a b : GMap) : header :=
  if decide (use_offset_for_meta = "ahead") then meta a else meta b.

(** What the loop has appended after [n] passes. *)
Definition differences (maps : list GMap) (k : nat)
  (use_offset_for_meta : string) (new_mc : list GMap) : Prop :=
  forall (i : nat) (r : GMap), new_mc !! i = Some r ->
    exists a b,
      maps !! (i + k)%nat = Some a /\ maps !! i = Some b /\
      elementwise ssub (data r) (data a) (data b) /\
      meta r = picked_meta use_offset_for_meta a b.

(** The pixel of a base difference: [(v - b) / b] when fractional, [v - b]
    when not. *)
Definition base_pixel (fraction : bool) (v b : T) : T :=
  if fraction then sdiv (ssub v b) b else ssub v b.

(** [r] is the base difference of [m] against the array [base_data]: the
    header of [m], its shape, and [base_pixel] at every pixel. *)
Definition base_differenced (base_data : ndarray T) (fraction : bool)
  (m r : GMap) : Prop :=
  meta r = meta m /\
  shape (data r) = shape (data m) /\
  forall y x : nat,
    (y < (shape (data m)).1)%nat -> (x < (shape (data m)).2)%nat ->
    item (data r) y x
    = base_pixel fraction (item (data m) y x) (item base_data y x).

(** ** Further accessors and reductions *)

(** The property [MapCubed.date]: the loop [time.append(m.date)]. *)
Definition MapCubed_date (self : MapCubed) : list Z := date <$> _maps self.

(** The property [MapCubed.scale]: [self._maps[0].scale]. *)
Definition MapCubed_scale (self : MapCubed) : result Scale :=
  m ← py_getitem (_maps self) 0; Ok (scale m).

(** The two arguments of a call [Map(value, header)] whose first argument is
    computed from the whole volume. *)
Record reduced (X : Type) : Type := Reduced {
  reduced_value : X;
  reduced_meta : header
}.

(** [MapCubed.apply_function(self, function, *function_args,
    **function_kwargs)]: [mapcube_index] is the keyword of that name when it
    is given; [function] stands for the caller's function closed over the
    remaining arguments, and may raise.  The arguments of [Map] are
    evaluated from left to right. *)
Definition MapCubed_apply_function {X : Type} (self : MapCubed)
  (function : ndarray3 T -> result X) (mapcube_index : option Z)
  : result (reduced X) :=
  let mapcube_index :=
    match mapcube_index with
    | Some i => i
    | None => 0
    end in
  vol ← MapCubed_data self;
  value ← function vol;
  h ← py_getitem (_meta self) mapcube_index;
  Ok {| reduced_value := value; reduced_meta := h |}.

(** [MapCubed.std], [mean], [min] and [max]: [Map(np_f(self.data),
    self._meta[mapcube_index])] for the numpy reduction [np_f]. *)
Definition MapCubed_reduce {X : Type} (np_f : ndarray3 T -> X)
  (self : MapCubed) (mapcube_index : Z) : result (reduced X) :=
  vol ← MapCubed_data self;
  h ← py_getitem (_meta self) mapcube_index;
  Ok {| reduced_value := np_f vol; reduced_meta := h |}.

(** A frame whose array can be assigned to a slice of [rows] by [cols]
    pixels: each axis has the slice's length or length 1. *)
Definition fits_slice (rows cols : nat) (m : GMap) : Prop :=
  ((shape (data m)).1 = rows \/ (shape (data m)).1 = 1%nat) /\
  ((shape (data m)).2 = cols \/ (shape (data m)).2 = 1%nat).

Definition broadcast_error : exn :=
  ValueError "could not broadcast input array".

End MapCube.

(** ** A concrete instance: rational images, integer and string headers *)

Module Sample.
Import QArith.

Lemma Qdiv_one (x : Q) : Qdiv x (1 # 1) = x.
Proof.
  destruct x as [n d]. unfold Qdiv, Qmult, Qinv; simpl.
  by rewrite Z.mul_1_r, Pos.mul_1_r.
Qed.

#[export] Instance Q_scalar : Scalar Q := {|
  szero := 0 # 1;
  sone := 1 # 1;
  ssub := Qminus;
  sdiv := Qdiv;
  sdiv_one := Qdiv_one
|}.

(** A header value. *)
Inductive hval : Type :=
| HInt (z : Z)
| HStr (s : string).

#[export] Instance hval_eq_dec : EqDecision hval.
Proof. solve_decision. Defined.

(** The timestamp and the pixel scale under the keys of a FITS header; the
    frame-level transforms leave a map as it is. *)
#[export] Instance sample_ops : FrameOps Q hval := {|
  Scale := option hval * option hval;
  Range := Z * Z;
  Dims := nat * nat;
  Method := string;
  date_of := fun h => match h !! "date-obs" with Some (HInt z) => z | _ => 0%Z end;
  scale_of := fun h => (h !! "cdelt1", h !! "cdelt2");
  frame_submap := fun m _ _ => Ok m;
  frame_superpixel := fun m _ _ => Ok m;
  frame_resample := fun m _ _ => Ok m
|}.

(** A [rows] by [cols] image whose pixel [(y, x)] holds [base + y * cols + x]. *)
Definition ramp (rows cols : nat) (base : Z) : ndarray Q := {|
  shape := (rows, cols);
  item := fun y x => inject_Z (base + Z.of_nat (y * cols + x))
|}.

Definition head_of (t : Z) (exptime : Z) : gmap string hval :=
  <["date-obs" := HInt t]> (<["exptime" := HInt exptime]>
    (<["cdelt1" := HInt 1]> {["cdelt2" := HInt 1]})).

Definition frame (rows cols : nat) (base t exptime : Z) : GenericMap Q hval :=
  {| data := ramp rows cols base; meta := head_of t exptime |}.

Definition f1 := frame 2 2 10 1 5.
Definition f2 := frame 2 2 20 2 5.
Definition f3 := frame 2 2 40 3 7.
Definition g2 := frame 3 3 0 2 5.
Definition g3 := frame 3 3 0 3 5.

(** The cube built from [f3], [f1], [f2] handed over out of order. *)
Definition cube123 : @MapCubed Q hval :=
  {| _maps := [f1; f2; f3]; _meta := [meta f1; meta f2; meta f3] |}.

(** Two lists of maps in date order whose odd one out sits at index 2 and at
    index 1. *)
Definition odd_last : list (GenericMap Q hval) := [f1; f2; g3].
Definition odd_middle : list (GenericMap Q hval) := [f1; g2; f3].

(** A 2 by 2 map of date 2 with another pixel scale than [f1]. *)
Definition s2 : GenericMap Q hval :=
  {| data := ramp 2 2 0; meta := <["cdelt1" := HInt 2]> (head_of 2 5) |}.

(** A cube whose third map was replaced by a larger one after construction. *)
Definition mutated : @MapCubed Q hval :=
  {| _maps := odd_last; _meta := meta <$> odd_last |}.

(** The positional arguments [f3, [f1, f2]]. *)
Definition args123 : list (@pyobj Q hval) :=
  [PyMap f3; PySeq [PyMap f1; PyMap f2]].

(** Two maps taken at the same time: [f2] and a map of date 2 with other
    pixels. *)
Definition f2' : GenericMap Q hval := frame 2 2 30 2 5.

(** A single-pixel map of date 3, and the cube whose third map was replaced
    by it after construction. *)
Definition p3 : GenericMap Q hval := frame 1 1 7 3 5.
Definition shrunk : @MapCubed Q hval :=
  {| _maps := [f1; f2; p3]; _meta := [meta f1; meta f2; meta p3] |}.

(** A header without an exposure time, and a cube that holds it. *)
Definition bare : GenericMap Q hval :=
  {| data := ramp 2 2 0;
     meta := <["date-obs" := HInt 4]>
               (<["cdelt1" := HInt 1]> {["cdelt2" := HInt 1]}) |}.
Definition cube_bare : @MapCubed Q hval :=
  {| _maps := [f1; bare]; _meta := [meta f1; meta bare] |}.

(** The empty cube. *)
Definition cube0 : @MapCubed Q hval := {| _maps := []; _meta := [] |}.

(** Frame-level transforms that refuse the maps of date 2. *)
Definition refuse_date_2 (m : GenericMap Q hval) : result (GenericMap Q hval) :=
  if decide (date_of (FrameOps := sample_ops) (meta m) = 2%Z)
  then Raise (ValueError "range outside the map")
  else Ok m.

Definition picky_ops : FrameOps Q hval := {|
  Scale := option hval * option hval;
  Range := Z * Z;
  Dims := nat * nat;
  Method := string;
  date_of := fun h => match h !! "date-obs" with Some (HInt z) => z | _ => 0%Z end;
  scale_of := fun h => (h !! "cdelt1", h !! "cdelt2");
  frame_submap := fun m _ _ => refuse_date_2 m;
  frame_superpixel := fun m _ _ => refuse_date_2 m;
  frame_resample := fun m _ _ => refuse_date_2 m
|}.

(** The cube built from [f2'], [f1], [f2]: the two maps of date 2 in the
    order in which they were handed over. *)
Definition cube_tie : @MapCubed Q hval :=
  {| _maps := [f1; f2'; f2]; _meta := [meta f1; meta f2'; meta f2] |}.

(** The slice [cube123[1:]]. *)
Definition cube23 : @MapCubed Q hval :=
  {| _maps := [f2; f3]; _meta := [meta f2; meta f3] |}.

(** A function of the volume: the pixel [(0, 0)] of frame 1. *)
Definition corner_of_frame_1 (vol : ndarray3 Q) : result Q :=
  Ok (item3 vol 0%nat 0%nat 1%nat).
End Sample.

(** * Properties *)

(** ** The stable sort *)

Section SortingFacts.
Context {A : Type} (k : A -> Z).

Lemma insert_by_perm (x : A) (l : list A) : insert_by k x l ≡ₚ x :: l.
Proof.
  induction l as [|y l IH]; simpl; [done|].
  destruct (k x <=? k y); [done|].
  rewrite IH. apply Permutation_swap.
Qed.

Lemma sort_by_perm (l : list A) : sort_by k l ≡ₚ l.
Proof.
  induction l as [|x l IH]; simpl; [done|].
  by rewrite insert_by_perm, IH.
Qed.

Lemma length_sort_by (l : list A) : length (sort_by k l) = length l.
Proof. apply Permutation_length, sort_by_perm. Qed.

Lemma insert_by_sorted (x : A) (l : list A) :
  sorted_by k l -> sorted_by k (insert_by k x l).
Proof.
  unfold sorted_by. induction 1 as [|y l Hl IH Hy]; simpl.
  - repeat constructor.
  - destruct (Z.leb_spec (k x) (k y)) as [Hxy|Hxy].
    + constructor; [by constructor|].
      constructor; [done|].
      eapply Forall_impl; [exact Hy|]. simpl. lia.
    + constructor; [done|].
      rewrite insert_by_perm. constructor; [lia|done].
Qed.

Lemma sort_by_sorted (l : list A) : sorted_by k (sort_by k l).
Proof.
  induction l as [|x l IH]; simpl; [constructor|].
  by apply insert_by_sorted.
Qed.

(** A list whose keys already ascend is left as it is. *)
Lemma sort_by_id (l : list A) : sorted_by k l -> sort_by k l = l.
Proof.
  unfold sorted_by. induction 1 as [|x l Hl IH Hx]; simpl; [done|].
  rewrite IH. destruct Hx as [|y l' Hxy _]; simpl; [done|].
  by rewrite (proj2 (Z.leb_le _ _) Hxy).
Qed.

(** Stability: the maps that share a key keep their relative order. *)
Lemma insert_by_filter (z : Z) (x : A) (l : list A) :
  filter (fun a => k a = z) (insert_by k x l)
  = filter (fun a => k a = z) (x :: l).
Proof.
  induction l as [|y l IH]; simpl; [done|].
  destruct (Z.leb_spec (k x) (k y)) as [Hxy|Hxy]; [done|].
  rewrite filter_cons, IH, !filter_cons.
  repeat case_decide; try done; lia.
Qed.

Lemma sort_by_stable (z : Z) (l : list A) :
  filter (fun a => k a = z) (sort_by k l) = filter (fun a => k a = z) l.
Proof.
  induction l as [|x l IH]; simpl; [done|].
  by rewrite insert_by_filter, !filter_cons, IH.
Qed.

Lemma sorted_by_lookup (l : list A) :
  sorted_by k l <->
  forall (i j : nat) (a b : A),
    (i < j)%nat -> l !! i = Some a -> l !! j = Some b -> k a <= k b.
Proof.
  unfold sorted_by. split.
  - induction 1 as [|x l Hl IH Hx]; intros i j a b Hij Hi Hj; [done|].
    destruct j as [|j]; [lia|]. simpl in Hj.
    destruct i as [|i]; simpl in Hi.
    + injection Hi as <-. rewrite Forall_lookup in Hx. eauto.
    + apply (IH i j); [lia|done..].
  - induction l as [|x l IH]; intros Hl; constructor.
    + apply IH. intros i j a b Hij Hi Hj.
      apply (Hl (S i) (S j)); [lia|done..].
    + apply Forall_lookup. intros j b Hj.
      apply (Hl 0%nat (S j)); [lia|done..].
Qed.
End SortingFacts.

(** ** Loops and indexing *)

Lemma bind_Ok {A B : Type} (r : result A) (f : A -> result B) (b : B) :
  (r ≫= f) = Ok b -> exists a, r = Ok a /\ f a = Ok b.
Proof. destruct r as [a|e]; simpl; [eauto|done]. Qed.

Lemma for_each_cons {A S : Type} (body : S -> A -> result S) (x : A)
  (l : list A) (s : S) :
  for_each body (x :: l) s = (body s x ≫= for_each body l).
Proof. done. Qed.

Lemma for_each_app {A S : Type} (body : S -> A -> result S) (l1 l2 : list A)
  (s : S) :
  for_each body (l1 ++ l2) s = (for_each body l1 s ≫= for_each body l2).
Proof.
  revert s. induction l1 as [|x l1 IH]; intros s; simpl; [done|].
  destruct (body s x) as [s'|e]; simpl; [apply IH|done].
Qed.

Lemma comprehension_Ok {A B : Type} (f : A -> result B) (g : A -> B)
  (l : list A) :
  (forall x, x ∈ l -> f x = Ok (g x)) -> comprehension f l = Ok (g <$> l).
Proof.
  induction l as [|x l IH]; intros Hf; simpl; [done|].
  rewrite (Hf x) by left. simpl. rewrite IH; [done|].
  intros y Hy. apply Hf. by right.
Qed.

Lemma py_getitem_nat {A : Type} (l : list A) (i : nat) (x : A) :
  l !! i = Some x -> py_getitem l (Z.of_nat i) = Ok x.
Proof.
  intros Hi. unfold py_getitem.
  destruct (Z.ltb_spec (Z.of_nat i) 0) as [?|_]; [lia|].
  destruct (Z.ltb_spec (Z.of_nat i) 0) as [?|_]; [lia|].
  by rewrite Nat2Z.id, Hi.
Qed.

Lemma py_getitem_0 {A : Type} (l : list A) (x : A) :
  l !! 0%nat = Some x -> py_getitem l 0 = Ok x.
Proof. apply (py_getitem_nat l 0). Qed.

Lemma py_getitem_offset {A : Type} (l : list A) (i k : nat) (x : A) :
  l !! (i + k)%nat = Some x -> py_getitem l (Z.of_nat i + Z.of_nat k) = Ok x.
Proof. rewrite <-Nat2Z.inj_add. apply py_getitem_nat. Qed.

Lemma py_getitem_nil {A : Type} (i : Z) :
  py_getitem (@nil A) i = Raise index_error.
Proof.
  unfold py_getitem; simpl.
  destruct (i <? 0); destruct (_ <? 0); try done; by rewrite lookup_nil.
Qed.

Lemma py_range_nat (n : nat) : py_range (Z.of_nat n) = Z.of_nat <$> seq 0 n.
Proof. unfold py_range. by rewrite Nat2Z.id. Qed.

Lemma py_range_S (n : nat) :
  py_range (Z.of_nat (S n)) = py_range (Z.of_nat n) ++ [Z.of_nat n].
Proof. rewrite !py_range_nat, seq_S, fmap_app. done. Qed.

Lemma forallb_elem_of {A : Type} (f : A -> bool) (l : list A) :
  forallb f l = true <-> forall x, x ∈ l -> f x = true.
Proof. rewrite forallb_forall. by setoid_rewrite list_elem_of_In. Qed.

(** The test [np.all([g(a) == g(l[0]) for a in l])] holds exactly when [g]
    agrees on any two elements. *)
Lemma same_as_first_true {A B : Type} `{EqDecision B} (g : A -> B)
  (l : list A) :
  match l with
  | [] => true
  | a0 :: _ => forallb (fun a => bool_decide (g a = g a0)) l
  end = true
  <-> forall a1 a2, a1 ∈ l -> a2 ∈ l -> g a1 = g a2.
Proof.
  destruct l as [|a0 l].
  { split; [|done]. intros _ a1 a2 Ha1. by apply elem_of_nil in Ha1. }
  rewrite forallb_elem_of. split.
  - intros Hall a1 a2 H1 H2.
    apply Hall, bool_decide_eq_true in H1. apply Hall, bool_decide_eq_true in H2.
    congruence.
  - intros Hall a Ha. apply bool_decide_eq_true, Hall; [done|by left].
Qed.

(** ** The constructor *)

Section Constructor.
Context {T : Type} `{ST : Scalar T}.
Context {V : Type} `{EqV : EqDecision V}.
Context `{FO : FrameOps T V}.

Implicit Types (m : GenericMap T V) (maps : list (GenericMap T V)).
Implicit Types (c : @MapCubed T V).

Lemma expand_list_maps maps :
  expand_list [PySeq (PyMap <$> maps)] = PyMap <$> maps.
Proof.
  unfold expand_list; simpl. rewrite app_nil_r.
  induction maps as [|m maps IH]; csimpl in *; [done|]. by f_equal.
Qed.

Lemma check_maps_maps maps : check_maps (PyMap <$> maps) = Ok maps.
Proof. induction maps as [|m maps IH]; csimpl; [done|]. by rewrite IH. Qed.

Lemma check_maps_Ok (objs : list pyobj) maps :
  check_maps objs = Ok maps -> objs = PyMap <$> maps.
Proof.
  revert maps. induction objs as [|o objs IH]; intros maps; simpl.
  - by intros [= <-].
  - destruct o as [m|items|repr]; try done.
    destruct (check_maps objs) as [ms|e]; simpl; [|done].
    intros [= <-]. simpl. by rewrite (IH ms).
Qed.

Lemma check_maps_Raise (objs : list pyobj) :
  (exists o, o ∈ objs /\ forall m, o <> PyMap m) ->
  check_maps objs
  = Raise (ValueError "MapCubed expects pre-constructed map objects.").
Proof.
  intros (o & Ho & Hne). induction Ho as [o objs|o o' objs Ho IH]; simpl.
  - destruct o as [m|items|repr]; [by destruct (Hne m)|done..].
  - destruct o' as [m|items|repr]; [|done..]. by rewrite IH.
Qed.

Lemma same_shape_as_first_true maps :
  same_shape_as_first maps = true <-> uniform_shape maps.
Proof. apply (same_as_first_true (fun m => shape (data m))). Qed.

Lemma same_scale_as_first_true maps :
  same_scale_as_first maps = true <-> uniform_scale maps.
Proof. apply (same_as_first_true scale). Qed.

Lemma uniform_shape_perm maps maps' :
  maps ≡ₚ maps' -> uniform_shape maps -> uniform_shape maps'.
Proof.
  intros Hp Hu m1 m2 H1 H2. apply Hu; by rewrite Hp.
Qed.

Lemma uniform_scale_perm maps maps' :
  maps ≡ₚ maps' -> uniform_scale maps -> uniform_scale maps'.
Proof.
  intros Hp Hu m1 m2 H1 H2. apply Hu; by rewrite Hp.
Qed.

(** The constructor, case by case, on the maps it was handed. *)
Lemma MapCubed_init_cases (args : list pyobj) (kwargs : gmap string kwval)
  maps :
  check_maps (expand_list args) = Ok maps ->
  MapCubed_init args kwargs
  = if negb (same_shape_as_first (sort_by date maps)) then Raise shape_error
    else if negb (same_scale_as_first (sort_by date maps))
    then Raise scale_error
    else Ok {| _maps := sort_by date maps;
               _meta := meta <$> sort_by date maps |}.
Proof. intros Hc. unfold MapCubed_init. by rewrite Hc. Qed.

(** A successful construction sorts the maps it was handed, stably, by
    date, and establishes the invariants. *)
Lemma MapCubed_init_Ok (args : list pyobj) (kwargs : gmap string kwval) c :
  MapCubed_init args kwargs = Ok c ->
  exists maps,
    expand_list args = PyMap <$> maps /\
    c = {| _maps := sort_by date maps; _meta := meta <$> sort_by date maps |} /\
    cube_inv c.
Proof.
  intros Hinit.
  destruct (check_maps (expand_list args)) as [maps|e] eqn:Hc;
    [|by unfold MapCubed_init in Hinit; rewrite Hc in Hinit].
  rewrite (MapCubed_init_cases _ _ _ Hc) in Hinit.
  destruct (same_shape_as_first _) eqn:Hshape; [|done].
  destruct (same_scale_as_first _) eqn:Hscale; [|done].
  simpl in Hinit. injection Hinit as <-.
  exists maps. split; [by apply check_maps_Ok|]. split; [done|].
  split; simpl.
  - by apply same_shape_as_first_true.
  - by apply same_scale_as_first_true.
  - intros i. simpl. by rewrite list_lookup_fmap.
  - apply sort_by_sorted.
Qed.

Lemma MapCubed_init_inv (args : list pyobj) (kwargs : gmap string kwval) c :
  MapCubed_init args kwargs = Ok c -> cube_inv c.
Proof. intros (maps & _ & _ & Hinv)%MapCubed_init_Ok. done. Qed.

(** Maps that are already in date order and uniform are stored as given. *)
Lemma MapCubed_of_list_Ok maps :
  sorted_by date maps -> uniform_shape maps -> uniform_scale maps ->
  MapCubed_of_list maps = Ok {| _maps := maps; _meta := meta <$> maps |}.
Proof.
  intros Hsorted Hshape Hscale. unfold MapCubed_of_list.
  rewrite (MapCubed_init_cases _ _ maps)
    by (rewrite expand_list_maps; apply check_maps_maps).
  rewrite (sort_by_id _ _ Hsorted).
  apply same_shape_as_first_true in Hshape as ->.
  apply same_scale_as_first_true in Hscale as ->. done.
Qed.

Lemma MapCubed_of_list_inv maps c : MapCubed_of_list maps = Ok c -> cube_inv c.
Proof. apply MapCubed_init_inv. Qed.
End Constructor.

(** ** Array arithmetic *)

Section ArrayFacts.
Context {T : Type} `{ST : Scalar T}.
Implicit Types (a b r : ndarray T).

Lemma broadcast_dim_same (d : nat) : broadcast_dim d d = Some d.
Proof. unfold broadcast_dim. by rewrite decide_True. Qed.

Lemma broadcast_shapes_same (s : nat * nat) : broadcast_shapes s s = Some s.
Proof.
  destruct s as [rows cols]. unfold broadcast_shapes; simpl.
  by rewrite !broadcast_dim_same.
Qed.

Lemma stretch_lt (d i : nat) : (i < d)%nat -> stretch d i = i.
Proof. unfold stretch. case_decide; lia. Qed.

Lemma broadcast_item_inside a (y x : nat) :
  (y < (shape a).1)%nat -> (x < (shape a).2)%nat ->
  broadcast_item a y x = item a y x.
Proof. intros Hy Hx. unfold broadcast_item. by rewrite !stretch_lt. Qed.

(** On equally shaped operands a binary operator works pixel by pixel. *)
Lemma np_binop_same_shape (f : T -> T -> T) a b :
  shape a = shape b ->
  exists r, np_binop f a b = Ok r /\ elementwise f r a b.
Proof.
  intros Hs. unfold np_binop. rewrite <-Hs, broadcast_shapes_same.
  eexists; split; [done|]. split; [done|]. simpl. intros y x Hy Hx.
  rewrite !broadcast_item_inside; [done|by rewrite <-?Hs..].
Qed.

Lemma np_subtract_same_shape a b :
  shape a = shape b ->
  exists r, np_subtract a b = Ok r /\ elementwise ssub r a b.
Proof. apply np_binop_same_shape. Qed.

Lemma np_true_divide_array a b :
  shape a = shape b ->
  exists r, np_true_divide a (OArray b) = Ok r /\ elementwise sdiv r a b.
Proof. apply np_binop_same_shape. Qed.

(** Dividing by the float [1.0] changes no pixel. *)
Lemma np_true_divide_one a :
  exists r, np_true_divide a (OFloat sone) = Ok r /\
    shape r = shape a /\ forall y x, item r y x = item a y x.
Proof.
  eexists; split; [done|]. split; [done|]. simpl. intros y x.
  apply sdiv_one.
Qed.
End ArrayFacts.

(** ** Running difference *)

Section RunningDifference.
Context {T : Type} `{ST : Scalar T}.
Context {V : Type} `{EqV : EqDecision V}.
Context `{FO : FrameOps T V}.

Implicit Types (m a b r : GenericMap T V) (maps : list (GenericMap T V)).
Implicit Types (c : @MapCubed T V).

Lemma running_difference_loop c (k : nat) (use_offset_for_meta : string) :
  uniform_shape (_maps c) ->
  use_offset_for_meta = "ahead" \/ use_offset_for_meta = "behind" ->
  forall n : nat,
    (n + k <= length (_maps c))%nat ->
    exists new_mc,
      for_each
        (running_difference_step c (Z.of_nat k) use_offset_for_meta)
        (py_range (Z.of_nat n)) [] = Ok new_mc /\
      length new_mc = n /\
      differences (_maps c) k use_offset_for_meta new_mc.
Proof.
  intros Hshape Hchoice. induction n as [|n IH]; intros Hn.
  { exists []. split; [done|]. split; [done|]. by intros i r Hi. }
  destruct IH as (new_mc & Hloop & Hlen & Hdiff); [lia|].
  destruct (lookup_lt_is_Some_2 (_maps c) (n + k)) as [a Ha]; [lia|].
  destruct (lookup_lt_is_Some_2 (_maps c) n) as [b Hb]; [lia|].
  destruct (np_subtract_same_shape (data a) (data b)) as (d & Hsub & Hd).
  { apply Hshape; eapply list_elem_of_lookup_2; eauto. }
  exists (new_mc ++ [Map d (picked_meta use_offset_for_meta a b)]).
  split; [|split].
  - rewrite py_range_S, for_each_app, Hloop. simpl.
    unfold running_difference_step.
    rewrite (py_getitem_offset _ _ _ _ Ha), (py_getitem_nat _ _ _ Hb).
    simpl. rewrite Hsub. simpl. unfold picked_meta.
    destruct Hchoice as [-> | ->]; by simpl.
  - rewrite length_app; simpl. lia.
  - intros i r Hi. apply lookup_app_Some in Hi as [Hi|[Hge Hi]].
    { by apply Hdiff. }
    rewrite Hlen in Hge, Hi.
    apply list_lookup_singleton_Some in Hi as [Hi <-].
    assert (i = n) as -> by lia. by exists a, b.
Qed.

(** The result of [running_difference] on a cube that satisfies the
    invariants, for an offset below the length and a recognised choice of
    header. *)
Lemma running_difference_spec c (k : nat) (use_offset_for_meta : string) :
  cube_inv c ->
  (k <= length (_maps c))%nat ->
  use_offset_for_meta = "ahead" \/ use_offset_for_meta = "behind" ->
  exists new_mc,
    MapCubed_running_difference c (Z.of_nat k) use_offset_for_meta
    = Ok {| _maps := new_mc; _meta := meta <$> new_mc |} /\
    length new_mc = (length (_maps c) - k)%nat /\
    differences (_maps c) k use_offset_for_meta new_mc.
Proof.
  intros [Hshape Hscale _ Hsorted] Hk Hchoice.
  destruct (running_difference_loop c k use_offset_for_meta Hshape Hchoice
              (length (_maps c) - k)) as (new_mc & Hloop & Hlen & Hdiff);
    [lia|].
  exists new_mc. split; [|done].
  unfold MapCubed_running_difference.
  replace (Z.of_nat (length (_maps c)) - Z.of_nat k)
    with (Z.of_nat (length (_maps c) - k)) by lia.
  rewrite Hloop. simpl. apply MapCubed_of_list_Ok.
  - apply sorted_by_lookup. intros i j r1 r2 Hij H1 H2.
    destruct (Hdiff i r1 H1) as (a1 & b1 & Ha1 & Hb1 & _ & Hm1).
    destruct (Hdiff j r2 H2) as (a2 & b2 & Ha2 & Hb2 & _ & Hm2).
    unfold date. rewrite Hm1, Hm2. unfold picked_meta.
    rewrite sorted_by_lookup in Hsorted. case_decide.
    + apply (Hsorted (i + k)%nat (j + k)%nat); [lia|done..].
    + by apply (Hsorted i j).
  - intros r1 r2 [i H1]%list_elem_of_lookup_1 [j H2]%list_elem_of_lookup_1.
    destruct (Hdiff i r1 H1) as (a1 & b1 & Ha1 & _ & [Hs1 _] & _).
    destruct (Hdiff j r2 H2) as (a2 & b2 & Ha2 & _ & [Hs2 _] & _).
    rewrite Hs1, Hs2. apply Hshape; eapply list_elem_of_lookup_2; eauto.
  - intros r1 r2 [i H1]%list_elem_of_lookup_1 [j H2]%list_elem_of_lookup_1.
    destruct (Hdiff i r1 H1) as (a1 & b1 & Ha1 & Hb1 & _ & Hm1).
    destruct (Hdiff j r2 H2) as (a2 & b2 & Ha2 & Hb2 & _ & Hm2).
    unfold scale. rewrite Hm1, Hm2. unfold picked_meta.
    case_decide; apply Hscale; eapply list_elem_of_lookup_2; eauto.
Qed.

(** An unrecognised choice of header stops the first pass of the loop. *)
Lemma running_difference_unrecognised c (k : nat)
  (use_offset_for_meta : string) :
  cube_inv c ->
  (k < length (_maps c))%nat ->
  use_offset_for_meta <> "ahead" -> use_offset_for_meta <> "behind" ->
  MapCubed_running_difference c (Z.of_nat k) use_offset_for_meta
  = Raise keyword_error.
Proof.
  intros [Hshape _ _ _] Hk Hahead Hbehind.
  destruct (lookup_lt_is_Some_2 (_maps c) (0 + k)) as [a Ha]; [lia|].
  destruct (lookup_lt_is_Some_2 (_maps c) 0) as [b Hb]; [lia|].
  destruct (np_subtract_same_shape (data a) (data b)) as (d & Hsub & Hd).
  { apply Hshape; eapply list_elem_of_lookup_2; eauto. }
  assert (running_difference_step c (Z.of_nat k) use_offset_for_meta []
            (Z.of_nat 0) = Raise keyword_error) as Hstep.
  { unfold running_difference_step.
    rewrite (py_getitem_offset _ 0 _ _ Ha), (py_getitem_nat _ 0 _ Hb).
    simpl. rewrite Hsub. simpl. by rewrite !decide_False. }
  unfold MapCubed_running_difference.
  replace (Z.of_nat (length (_maps c)) - Z.of_nat k)
    with (Z.of_nat (S (length (_maps c) - k - 1))) by lia.
  rewrite py_range_nat.
  change (seq 0 (S ?n)) with (0%nat :: seq 1 n). rewrite fmap_cons.
  rewrite for_each_cons, Hstep. done.
Qed.
End RunningDifference.

(** ** Base difference *)

Section BaseDifference.
Context {T : Type} `{ST : Scalar T}.
Context {V : Type} `{EqV : EqDecision V}.
Context `{FO : FrameOps T V}.

Implicit Types (m r : GenericMap T V) (maps : list (GenericMap T V)).
Implicit Types (c : @MapCubed T V) (base_data : ndarray T).

Lemma base_difference_step_spec base_data (fraction : bool) m
  (new_mc : list (GenericMap T V)) :
  shape (data m) = shape base_data ->
  exists r,
    base_difference_step base_data
      (if fraction then OArray base_data else OFloat sone) new_mc m
    = Ok (new_mc ++ [r]) /\
    base_differenced base_data fraction m r.
Proof.
  intros Hs. unfold base_difference_step.
  destruct (np_subtract_same_shape (data m) base_data Hs)
    as (d & -> & Hds & Hd). simpl.
  destruct fraction.
  - destruct (np_true_divide_array d base_data) as (q & -> & Hqs & Hq);
      [congruence|]. simpl.
    eexists; split; [done|]. split; [done|]. simpl.
    split; [congruence|]. intros y x Hy Hx.
    rewrite Hq by (by rewrite Hds). by rewrite Hd.
  - destruct (np_true_divide_one d) as (q & -> & Hqs & Hq). simpl.
    eexists; split; [done|]. split; [done|]. simpl.
    split; [congruence|]. intros y x Hy Hx. rewrite Hq. by apply Hd.
Qed.

Lemma base_difference_loop base_data (fraction : bool) maps :
  (forall m, m ∈ maps -> shape (data m) = shape base_data) ->
  forall acc : list (GenericMap T V),
    exists new_mc,
      for_each
        (base_difference_step base_data
           (if fraction then OArray base_data else OFloat sone)) maps acc
      = Ok (acc ++ new_mc) /\
      Forall2 (base_differenced base_data fraction) maps new_mc.
Proof.
  induction maps as [|m maps IH]; intros Hshape acc.
  { exists []. by rewrite app_nil_r. }
  destruct (base_difference_step_spec base_data fraction m acc)
    as (r & Hstep & Hr); [apply Hshape; by left|].
  destruct (IH (fun m' Hm' => Hshape m' (list_elem_of_further _ _ _ Hm'))
              (acc ++ [r])) as (new_mc & Hloop & Hall).
  exists (r :: new_mc). rewrite for_each_cons, Hstep. simpl.
  rewrite Hloop, <-app_assoc. by split; [|constructor].
Qed.

Lemma base_differenced_sorted base_data (fraction : bool) maps
  (new_mc : list (GenericMap T V)) :
  Forall2 (base_differenced base_data fraction) maps new_mc ->
  sorted_by date maps -> sorted_by date new_mc.
Proof.
  intros Hall Hsorted. apply sorted_by_lookup. intros i j r1 r2 Hij H1 H2.
  destruct (Forall2_lookup_r _ _ _ _ _ Hall H1) as (m1 & Hm1 & Heq1 & _).
  destruct (Forall2_lookup_r _ _ _ _ _ Hall H2) as (m2 & Hm2 & Heq2 & _).
  unfold date. rewrite Heq1, Heq2.
  rewrite sorted_by_lookup in Hsorted. by apply (Hsorted i j).
Qed.

Lemma base_differenced_meta base_data (fraction : bool) maps
  (new_mc : list (GenericMap T V)) :
  Forall2 (base_differenced base_data fraction) maps new_mc ->
  meta <$> new_mc = meta <$> maps.
Proof.
  induction 1 as [|m r ms rs [Hm _] _ IH]; csimpl; [done|]. by rewrite Hm, IH.
Qed.

(** The result of [base_difference] on a cube that satisfies the invariants,
    against a base array shaped like the first map. *)
Lemma base_difference_spec c (base : base_arg) (fraction : bool) base_data
  (first : GenericMap T V) :
  cube_inv c ->
  base_data_of c base = Ok base_data ->
  _maps c !! 0%nat = Some first ->
  shape base_data = shape (data first) ->
  exists new_mc,
    MapCubed_base_difference c base fraction
    = Ok {| _maps := new_mc; _meta := meta <$> new_mc |} /\
    Forall2 (base_differenced base_data fraction) (_maps c) new_mc.
Proof.
  intros [Hshape Hscale _ Hsorted] Hbase Hfirst Hs.
  assert (first ∈ _maps c) as Hin by (by eapply list_elem_of_lookup_2).
  destruct (base_difference_loop base_data fraction (_maps c)) with (acc := @nil (GenericMap T V))
    as (new_mc & Hloop & Hall).
  { intros m Hm. rewrite Hs. by apply Hshape. }
  exists new_mc. split; [|done].
  unfold MapCubed_base_difference. rewrite Hbase. simpl.
  rewrite (py_getitem_0 _ _ Hfirst). simpl.
  rewrite bool_decide_eq_false_2 by (by intros ?).
  rewrite Hloop. simpl. apply MapCubed_of_list_Ok.
  - by eapply base_differenced_sorted.
  - intros r1 r2 [i H1]%list_elem_of_lookup_1 [j H2]%list_elem_of_lookup_1.
    destruct (Forall2_lookup_r _ _ _ _ _ Hall H1) as (m1 & Hm1 & _ & -> & _).
    destruct (Forall2_lookup_r _ _ _ _ _ Hall H2) as (m2 & Hm2 & _ & -> & _).
    apply Hshape; by eapply list_elem_of_lookup_2.
  - intros r1 r2 [i H1]%list_elem_of_lookup_1 [j H2]%list_elem_of_lookup_1.
    destruct (Forall2_lookup_r _ _ _ _ _ Hall H1) as (m1 & Hm1 & Heq1 & _).
    destruct (Forall2_lookup_r _ _ _ _ _ Hall H2) as (m2 & Hm2 & Heq2 & _).
    unfold scale. rewrite Heq1, Heq2.
    apply Hscale; by eapply list_elem_of_lookup_2.
Qed.

(** A base array shaped unlike the first map is refused. *)
Lemma base_difference_mismatch c (base : base_arg) (fraction : bool) base_data
  (first : GenericMap T V) :
  base_data_of c base = Ok base_data ->
  _maps c !! 0%nat = Some first ->
  shape base_data <> shape (data first) ->
  MapCubed_base_difference c base fraction = Raise base_shape_error.
Proof.
  intros Hbase Hfirst Hs. unfold MapCubed_base_difference.
  rewrite Hbase. simpl. rewrite (py_getitem_0 _ _ Hfirst). simpl.
  by rewrite bool_decide_eq_true_2.
Qed.

(** A successful [base_difference] had a base array and a first map of one
    shape. *)
Lemma base_difference_Ok c (base : base_arg) (fraction : bool) c' :
  MapCubed_base_difference c base fraction = Ok c' ->
  exists base_data first,
    base_data_of c base = Ok base_data /\
    _maps c !! 0%nat = Some first /\
    shape base_data = shape (data first).
Proof.
  unfold MapCubed_base_difference. intros Hok.
  apply bind_Ok in Hok as (base_data & Hbase & Hok).
  apply bind_Ok in Hok as (first & Hfirst & Hok).
  exists base_data, first. split; [done|].
  case_bool_decide as Hs; [done|]. split.
  - unfold py_getitem in Hfirst. simpl in Hfirst.
    by destruct (_maps c) as [|m0 maps]; simplify_eq/=.
  - destruct (decide (shape base_data = shape (data first))); [done|].
    by destruct Hs.
Qed.
End BaseDifference.

(** ** The volume, the collapsed headers, the derived cubes *)

Lemma comprehension_Forall2 {A B : Type} (f : A -> result B) (l : list A)
  (ys : list B) :
  Forall2 (fun x y => f x = Ok y) l ys -> comprehension f l = Ok ys.
Proof. induction 1 as [|x y l ys Hx _ IH]; simpl; [done|]. by rewrite Hx, IH. Qed.

Lemma forallb_id_fmap {A : Type} (f : A -> bool) (l : list A) :
  forallb id (f <$> l) = forallb f l.
Proof. induction l as [|x l IH]; csimpl; [done|]. by rewrite IH. Qed.

Section Volume.
Context {T : Type} `{ST : Scalar T}.
Context {V : Type} `{EqV : EqDecision V}.
Context `{FO : FrameOps T V}.

Implicit Types (m : GenericMap T V) (c : @MapCubed T V).

Lemma as_array_uniform c (rows cols : nat) :
  _maps c <> [] ->
  (forall m, m ∈ _maps c -> shape (data m) = (rows, cols)) ->
  exists v,
    MapCubed_as_array c = Ok (Stack3 v) /\
    shape3 v = (rows, cols, length (_maps c)) /\
    forall (t : nat) m, _maps c !! t = Some m ->
      forall y x : nat, item3 v y x t = item (data m) y x.
Proof.
  intros Hne Hshape. unfold MapCubed_as_array, all_maps_same_shape.
  assert (same_shape_as_first (_maps c) = true) as ->.
  { apply same_shape_as_first_true. intros m1 m2 H1 H2.
    by rewrite (Hshape m1), (Hshape m2). }
  destruct (_maps c) as [|m0 maps] eqn:Hmaps; [done|].
  unfold np_asarray. rewrite fmap_cons.
  assert (forallb (fun a => bool_decide (shape a = shape (data m0)))
            (data m0 :: (data <$> maps)) = true) as ->.
  { apply forallb_elem_of. intros a Ha. apply bool_decide_eq_true.
    rewrite <-fmap_cons in Ha. apply list_elem_of_fmap in Ha as (m & -> & Hm).
    rewrite (Hshape m Hm). symmetry. apply Hshape. by left. }
  rewrite (Hshape m0) by (by left). simpl.
  eexists; split; [done|]. split; [by rewrite length_fmap|].
  simpl. intros t m Ht y x. rewrite <-fmap_cons, list_lookup_fmap, Ht. done.
Qed.

Lemma as_array_mismatch c :
  ~ uniform_shape (_maps c) ->
  MapCubed_as_array c = Raise (ValueError "Not all maps have the same shape.").
Proof.
  intros Hnot. unfold MapCubed_as_array, all_maps_same_shape.
  destruct (same_shape_as_first (_maps c)) eqn:Hs; [|done].
  by apply same_shape_as_first_true in Hs.
Qed.

Lemma assign_frame_fits (vol : ndarray3 T) (i : nat) (a : ndarray T)
  (rows cols n : nat) :
  shape3 vol = (rows, cols, n) ->
  shape a = (rows, cols) ->
  assign_frame vol i a
  = Ok {| shape3 := shape3 vol;
          item3 := fun y x t =>
            if decide (t = i) then broadcast_item a y x
            else item3 vol y x t |}.
Proof.
  intros Hvol Ha. unfold assign_frame. rewrite Hvol, Ha. simpl.
  rewrite (bool_decide_eq_true_2 (rows = rows)) by done.
  by rewrite (bool_decide_eq_true_2 (cols = cols)) by done.
Qed.

(** The loop of the property [data] over maps of shape [(rows, cols)],
    started at frame index [s] on a volume of that frame shape. *)
Lemma assign_frames_spec (rows cols n : nat) (l : list (GenericMap T V)) :
  (forall m, m ∈ l -> shape (data m) = (rows, cols)) ->
  forall (s : nat) (vol : ndarray3 T),
    shape3 vol = (rows, cols, n) ->
    exists v,
      for_each (fun vol '(i, m) => assign_frame vol i (data m))
        (zip (seq s (length l)) l) vol = Ok v /\
      shape3 v = (rows, cols, n) /\
      (forall (t : nat) m, l !! t = Some m ->
         forall y x : nat, (y < rows)%nat -> (x < cols)%nat ->
           item3 v y x (s + t)%nat = item (data m) y x) /\
      (forall t y x : nat, (t < s)%nat -> item3 v y x t = item3 vol y x t).
Proof.
  induction l as [|m l IH]; intros Hshape s vol Hvol.
  { exists vol. split_and!; [done..| |done]. intros t m Ht. done. }
  assert (shape (data m) = (rows, cols)) as Hm by (apply Hshape; by left).
  simpl. rewrite (assign_frame_fits vol s (data m) rows cols n Hvol Hm).
  simpl.
  edestruct (IH (fun m' Hm' => Hshape m' (list_elem_of_further _ _ _ Hm'))
               (S s)) as (v & Hloop & Hv & Hitems & Hold); [|rewrite Hloop].
  { simpl. exact Hvol. }
  exists v. split_and!; [done..| |].
  - intros [|t] m' Ht y x Hy Hx; simpl in Ht.
    + injection Ht as <-. rewrite Nat.add_0_r, Hold by lia. simpl.
      rewrite decide_True by done.
      apply broadcast_item_inside; by rewrite Hm.
    + rewrite <-Nat.add_succ_comm. by apply Hitems.
  - intros t y x Ht. rewrite Hold by lia. simpl.
    by rewrite decide_False by lia.
Qed.

(** The property [data] agrees with [as_array] on a cube of equally shaped
    maps. *)
Lemma MapCubed_data_uniform c (rows cols : nat) :
  _maps c <> [] ->
  (forall m, m ∈ _maps c -> shape (data m) = (rows, cols)) ->
  exists v,
    MapCubed_data c = Ok v /\
    shape3 v = (rows, cols, length (_maps c)) /\
    forall (t : nat) m, _maps c !! t = Some m ->
      forall y x : nat, (y < rows)%nat -> (x < cols)%nat ->
        item3 v y x t = item (data m) y x.
Proof.
  intros Hne Hshape.
  assert (exists m0, _maps c !! 0%nat = Some m0) as [m0 Hm0].
  { destruct (_maps c) as [|m0 maps]; [done|]. by exists m0. }
  unfold MapCubed_data, MapCubed_len.
  rewrite (py_getitem_0 _ _ Hm0).
  change (Ok m0 ≫= ?f) with (f m0). cbv beta.
  rewrite (Hshape m0) by (by eapply list_elem_of_lookup_2).
  set (zeros := {| shape3 := _; item3 := _ |}).
  destruct (assign_frames_spec rows cols (length (_maps c)) (_maps c)
              Hshape 0%nat zeros eq_refl) as (v & Hloop & Hv & Hitems & _).
  exists v. split_and!; [done..|]. intros t m Ht. by apply (Hitems t).
Qed.

(** [meta(key)] on a cube with at least one header, all of which have the
    key: one shared value is returned alone in a list, differing values are
    returned in full. *)
Lemma MapCubed_meta_spec c (k : string) (vs : list V) :
  _meta c <> [] ->
  Forall2 (fun (h : gmap string V) v => h !! k = Some v) (_meta c) vs ->
  (forall v, (forall v', v' ∈ vs -> v' = v) ->
     MapCubed_meta c k = Ok (AList [v])) /\
  ((exists v1 v2, v1 ∈ vs /\ v2 ∈ vs /\ v1 <> v2) ->
     MapCubed_meta c k = Ok (AList vs)).
Proof.
  intros Hne Hvs. unfold MapCubed_meta.
  rewrite (comprehension_Forall2 _ _ vs).
  2:{ eapply Forall2_impl; [exact Hvs|]. simpl. by intros h v ->. }
  simpl. destruct vs as [|v0 vs].
  { apply Forall2_nil_inv_r in Hvs. done. }
  rewrite (comprehension_Ok _ (fun r => bool_decide (r = v0)))
    by (intros r _; by rewrite (py_getitem_0 (v0 :: vs) v0)).
  simpl. rewrite bool_decide_eq_true_2 by done. simpl.
  rewrite forallb_id_fmap.
  pose proof (same_as_first_true id (v0 :: vs)) as Hsame. simpl in Hsame.
  rewrite bool_decide_eq_true_2 in Hsame by done. simpl in Hsame.
  split.
  - intros v Hv. rewrite (proj2 Hsame).
    + by rewrite (Hv v0) by left.
    + intros a1 a2 H1 H2. by rewrite (Hv a1), (Hv a2).
  - intros (v1 & v2 & H1 & H2 & Hneq).
    destruct (forallb _ vs) eqn:Hall; [|done].
    destruct Hneq. by apply Hsame.
Qed.

(** Every operation that builds a new cube ends in the constructor. *)
Lemma derived_inv c c' : derived c c' -> cube_inv c'.
Proof.
  destruct 1 as [range_a range_b c' Hop|dims method c' Hop|dims method c' Hop
                |offset use c' Hop|base fraction c' Hop|s c' Hop].
  - apply bind_Ok in Hop as (new_maps & _ & Hop).
    by eapply MapCubed_of_list_inv.
  - apply bind_Ok in Hop as (new_maps & _ & Hop).
    by eapply MapCubed_of_list_inv.
  - apply bind_Ok in Hop as (new_maps & _ & Hop).
    by eapply MapCubed_of_list_inv.
  - apply bind_Ok in Hop as (new_maps & _ & Hop).
    by eapply MapCubed_of_list_inv.
  - unfold MapCubed_base_difference in Hop.
    apply bind_Ok in Hop as (base_data & _ & Hop).
    apply bind_Ok in Hop as (first & _ & Hop).
    case_bool_decide; [done|].
    apply bind_Ok in Hop as (new_maps & _ & Hop).
    by eapply MapCubed_of_list_inv.
  - simpl in Hop.
    apply bind_Ok in Hop as (l & _ & Hop).
    apply bind_Ok in Hop as (c'' & Hc & [= ->]).
    by eapply MapCubed_of_list_inv.
Qed.
End Volume.

(** * The claims *)

Section Claims.
Context {T : Type} `{ST : Scalar T}.
Context {V : Type} `{EqV : EqDecision V}.
Context `{FO : FrameOps T V}.

Implicit Types (m a b r : GenericMap T V) (c : @MapCubed T V).
Implicit Types (args : list (@pyobj T V)) (kwargs : gmap string kwval).

(** C1. For a constructed cube [c] of [n] maps and an offset [0 < k < n],
    [running_difference] returns a new cube of [n - k] maps whose map [i]
    holds [c[i+k].data - c[i].data] pixel by pixel and carries the header of
    map [i + k] under ['ahead'] and of map [i] under ['behind']. *)
Theorem running_difference_correct args kwargs c (k : nat)
  (use_offset_for_meta : string) :
  MapCubed_init args kwargs = Ok c ->
  (0 < k < MapCubed_len c)%nat ->
  use_offset_for_meta = "ahead" \/ use_offset_for_meta = "behind" ->
  exists c',
    MapCubed_running_difference c (Z.of_nat k) use_offset_for_meta = Ok c' /\
    MapCubed_len c' = (MapCubed_len c - k)%nat /\
    forall i : nat, (i < MapCubed_len c - k)%nat ->
      exists r a b,
        _maps c' !! i = Some r /\
        _maps c !! (i + k)%nat = Some a /\
        _maps c !! i = Some b /\
        elementwise ssub (data r) (data a) (data b) /\
        (use_offset_for_meta = "ahead" -> meta r = meta a) /\
        (use_offset_for_meta = "behind" -> meta r = meta b).
Proof.
  intros Hinv%MapCubed_init_inv Hk Hchoice. unfold MapCubed_len in *.
  destruct (running_difference_spec c k use_offset_for_meta Hinv)
    as (new_mc & Hrun & Hlen & Hdiff); [lia|done|].
  eexists; split; [exact Hrun|]. simpl. split; [done|].
  intros i Hi.
  destruct (lookup_lt_is_Some_2 new_mc i) as [r Hr]; [lia|].
  destruct (Hdiff i r Hr) as (a & b & Ha & Hb & Hd & Hm).
  exists r, a, b. split_and!; [done..| |].
  - intros ->. by rewrite Hm.
  - intros ->. by rewrite Hm.
Qed.

(** C2 (amended). When the maps handed to the constructor do not all have
    one shape, construction fails with the dimensions [ValueError]; when
    they have one shape but not one scale, it fails with the scale
    [ValueError].  Neither error carries a frame index. *)
Theorem construction_rejects_mismatch args kwargs
  (maps : list (GenericMap T V)) :
  expand_list args = PyMap <$> maps ->
  ((exists m1 m2, m1 ∈ maps /\ m2 ∈ maps /\
      shape (data m1) <> shape (data m2)) ->
   MapCubed_init args kwargs = Raise shape_error) /\
  (uniform_shape maps ->
   (exists m1 m2, m1 ∈ maps /\ m2 ∈ maps /\ scale m1 <> scale m2) ->
   MapCubed_init args kwargs = Raise scale_error).
Proof.
  intros Hargs.
  assert (check_maps (expand_list args) = Ok maps) as Hc
    by (rewrite Hargs; apply check_maps_maps).
  rewrite (MapCubed_init_cases _ _ _ Hc). split.
  - intros (m1 & m2 & H1 & H2 & Hne).
    destruct (same_shape_as_first _) eqn:Hs; [|done].
    apply same_shape_as_first_true in Hs.
    destruct Hne. apply Hs; by rewrite sort_by_perm.
  - intros Hshape (m1 & m2 & H1 & H2 & Hne).
    rewrite (proj2 (same_shape_as_first_true _)).
    2:{ eapply uniform_shape_perm; [symmetry; apply sort_by_perm|done]. }
    simpl. destruct (same_scale_as_first _) eqn:Hs; [|done].
    apply same_scale_as_first_true in Hs.
    destruct Hne. apply Hs; by rewrite sort_by_perm.
Qed.

(** C3 (amended). Construction fails with the pre-constructed-maps
    [ValueError] when a supplied element is not a map; from an empty
    sequence it succeeds and yields the cube of zero maps. *)
Theorem construction_non_map_or_empty args kwargs :
  ((exists o, o ∈ expand_list args /\ forall m, o <> PyMap m) ->
   MapCubed_init args kwargs
   = Raise (ValueError "MapCubed expects pre-constructed map objects.")) /\
  (expand_list args = [] ->
   MapCubed_init args kwargs = Ok {| _maps := []; _meta := [] |}).
Proof.
  split.
  - intros Hbad. unfold MapCubed_init. by rewrite (check_maps_Raise _ Hbad).
  - intros Hnil. unfold MapCubed_init. by rewrite Hnil.
Qed.

(** C5. For a cube of [n >= 1] maps whose arrays all have the shape
    [(rows, cols)] now, [as_array] returns a volume of shape
    [(rows, cols, n)] whose slice at frame index [t] is the array of map
    [t]; when two maps differ in shape it raises the same-shape
    [ValueError] instead. *)
Theorem as_array_correct c :
  _maps c <> [] ->
  (forall rows cols : nat,
     (forall m, m ∈ _maps c -> shape (data m) = (rows, cols)) ->
     exists v,
       MapCubed_as_array c = Ok (Stack3 v) /\
       shape3 v = (rows, cols, MapCubed_len c) /\
       forall (t : nat) m, _maps c !! t = Some m ->
         forall y x : nat, item3 v y x t = item (data m) y x) /\
  ((exists m1 m2, m1 ∈ _maps c /\ m2 ∈ _maps c /\
      shape (data m1) <> shape (data m2)) ->
   MapCubed_as_array c
   = Raise (ValueError "Not all maps have the same shape.")).
Proof.
  intros Hne. split.
  - intros rows cols Hshape. by apply as_array_uniform.
  - intros (m1 & m2 & H1 & H2 & Hneq). apply as_array_mismatch.
    intros Hu. destruct Hneq. by apply Hu.
Qed.

(** C6. For a constructed cube [c] and a base (an index into [c] or a map)
    whose array [base_data] has the shape of the maps of [c],
    [base_difference] returns a cube of the same length whose map [i] holds
    [(c[i].data - base_data) / base_data] when [fraction] is set and
    [c[i].data - base_data] when it is not, pixel by pixel; a base array of
    another shape is refused with the base-shape [ValueError]. *)
Theorem base_difference_correct args kwargs c (base : base_arg)
  (fraction : bool) (base_data : ndarray T) (first : GenericMap T V) :
  MapCubed_init args kwargs = Ok c ->
  base_data_of c base = Ok base_data ->
  _maps c !! 0%nat = Some first ->
  (shape base_data = shape (data first) ->
   exists c',
     MapCubed_base_difference c base fraction = Ok c' /\
     MapCubed_len c' = MapCubed_len c /\
     forall (i : nat) m, _maps c !! i = Some m ->
       exists r,
         _maps c' !! i = Some r /\
         shape (data r) = shape (data m) /\
         forall y x : nat,
           (y < (shape (data m)).1)%nat -> (x < (shape (data m)).2)%nat ->
           item (data r) y x
           = if fraction
             then sdiv (ssub (item (data m) y x) (item base_data y x))
                       (item base_data y x)
             else ssub (item (data m) y x) (item base_data y x)) /\
  (shape base_data <> shape (data first) ->
   MapCubed_base_difference c base fraction = Raise base_shape_error).
Proof.
  intros Hinv%MapCubed_init_inv Hbase Hfirst. split.
  - intros Hs.
    destruct (base_difference_spec c base fraction base_data first)
      as (new_mc & Hrun & Hall); [done..|].
    eexists; split; [exact Hrun|]. unfold MapCubed_len. simpl.
    split; [symmetry; by eapply Forall2_length|].
    intros i m Hm.
    destruct (Forall2_lookup_l _ _ _ _ _ Hall Hm) as (r & Hr & _ & Hrs & Hpix).
    exists r. by destruct fraction.
  - by apply base_difference_mismatch.
Qed.

(** C8 (amended). For a cube with at least one header and a key present in
    every header, [meta(key)] returns a one-element list holding the shared
    value when the values are identical across the frames, and the full
    per-frame list of values, in frame order, otherwise. *)
Theorem meta_collapses_to_singleton_list c (k : string) (vs : list V) :
  _meta c <> [] ->
  Forall2 (fun (h : gmap string V) v => h !! k = Some v) (_meta c) vs ->
  (forall v, (forall v', v' ∈ vs -> v' = v) ->
     MapCubed_meta c k = Ok (AList [v])) /\
  ((exists v1 v2, v1 ∈ vs /\ v2 ∈ vs /\ v1 <> v2) ->
     MapCubed_meta c k = Ok (AList vs)).
Proof. apply MapCubed_meta_spec. Qed.

(** C9. A cube returned by [submap], [superpixel], [resample],
    [running_difference], [base_difference] or slicing satisfies the cube
    invariants: one shape, one scale, and a header list index-aligned with
    the map list. *)
Theorem derived_cube_invariants c c' :
  derived c c' ->
  uniform_shape (_maps c') /\ uniform_scale (_maps c') /\ aligned c'.
Proof. intros [Hshape Hscale Haligned _]%derived_inv. done. Qed.

(** C10. For a constructed cube [c], map [i] of a successful
    [base_difference] carries the header of map [i] of [c], whatever the
    base and whether or not the difference is fractional; the headers of the
    result are those of [c], in order. *)
Theorem base_difference_keeps_meta args kwargs c (base : base_arg)
  (fraction : bool) c' :
  MapCubed_init args kwargs = Ok c ->
  MapCubed_base_difference c base fraction = Ok c' ->
  (forall (i : nat) m, _maps c !! i = Some m ->
     exists r, _maps c' !! i = Some r /\ meta r = meta m) /\
  meta <$> _maps c' = meta <$> _maps c /\
  _meta c' = meta <$> _maps c.
Proof.
  intros Hinv%MapCubed_init_inv Hok.
  destruct (base_difference_Ok _ _ _ _ Hok)
    as (base_data & first & Hbase & Hfirst & Hs).
  destruct (base_difference_spec c base fraction base_data first)
    as (new_mc & Hrun & Hall); [done..|].
  rewrite Hrun in Hok. injection Hok as <-. simpl.
  pose proof (base_differenced_meta _ _ _ _ Hall) as Hmeta.
  split; [|done]. intros i m Hm.
  destruct (Forall2_lookup_l _ _ _ _ _ Hall Hm) as (r & Hr & Hmr & _).
  by exists r.
Qed.
End Claims.

(** * The claims on the sample cube *)

Import Sample.

Abbreviation Q := QArith_base.Q.

Lemma cube123_constructed : MapCubed_init args123 ∅ = Ok cube123.
Proof. reflexivity. Qed.

Lemma running_difference_correct_witness :
  exists c',
    MapCubed_running_difference cube123 (Z.of_nat 1) "ahead" = Ok c' /\
    MapCubed_len c' = (MapCubed_len cube123 - 1)%nat /\
    forall i : nat, (i < MapCubed_len cube123 - 1)%nat ->
      exists r a b,
        _maps c' !! i = Some r /\
        _maps cube123 !! (i + 1)%nat = Some a /\
        _maps cube123 !! i = Some b /\
        elementwise ssub (data r) (data a) (data b) /\
        ("ahead" = "ahead" -> meta r = meta a) /\
        ("ahead" = "behind" -> meta r = meta b).
Proof.
  apply (running_difference_correct args123 ∅ cube123 1 "ahead").
  - reflexivity.
  - unfold MapCubed_len. simpl. lia.
  - left. reflexivity.
Defined.

Lemma odd_last_sorted : sorted_by date odd_last.
Proof. apply sorted_by_lookup. intros [|[|[|i]]] [|[|[|j]]] a b Hij Ha Hb;
  simplify_eq/=; try lia; by vm_compute. Qed.

Lemma odd_middle_sorted : sorted_by date odd_middle.
Proof. apply sorted_by_lookup. intros [|[|[|i]]] [|[|[|j]]] a b Hij Ha Hb;
  simplify_eq/=; try lia; by vm_compute. Qed.

Lemma odd_last_not_uniform : ~ uniform_shape odd_last.
Proof.
  intros Hu. specialize (Hu f1 g3). simpl in Hu.
  assert ((2, 2)%nat = (3, 3)%nat) as [=]. apply Hu.
  - apply (list_elem_of_lookup_2 _ 0%nat). reflexivity.
  - apply (list_elem_of_lookup_2 _ 2%nat). reflexivity.
Qed.

Lemma odd_middle_not_uniform : ~ uniform_shape odd_middle.
Proof.
  intros Hu. specialize (Hu f1 g2). simpl in Hu.
  assert ((2, 2)%nat = (3, 3)%nat) as [=]. apply Hu.
  - apply (list_elem_of_lookup_2 _ 0%nat). reflexivity.
  - apply (list_elem_of_lookup_2 _ 1%nat). reflexivity.
Qed.

(** C2 as stated fails: the error raised for maps of differing shapes names
    no frame.  The lists [odd_last] and [odd_middle] are both refused with
    the same exception, while the only map that differs from the first in
    shape sits at index 2 in one and at index 1 in the other; so no reading
    of the exception gives an offending index for both. *)
Lemma shape_error_names_no_index :
  ~ exists offending : exn -> nat,
      forall maps : list (GenericMap Q hval),
        sorted_by date maps ->
        ~ uniform_shape maps ->
        exists e m m0,
          MapCubed_of_list maps = Raise e /\
          maps !! offending e = Some m /\
          maps !! 0%nat = Some m0 /\
          shape (data m) <> shape (data m0).
Proof.
  intros [offending Hoff].
  destruct (Hoff odd_last odd_last_sorted odd_last_not_uniform)
    as (e1 & m1 & z1 & He1 & Hm1 & Hz1 & Hne1).
  destruct (Hoff odd_middle odd_middle_sorted odd_middle_not_uniform)
    as (e2 & m2 & z2 & He2 & Hm2 & Hz2 & Hne2).
  assert (e1 = shape_error) as -> by (by injection He1).
  assert (e2 = shape_error) as -> by (by injection He2).
  injection Hz1 as <-. injection Hz2 as <-.
  destruct (offending shape_error) as [|[|[|i]]]; simplify_eq/=.
Qed.

Lemma construction_rejects_mismatch_witness :
  MapCubed_init [PySeq (PyMap <$> odd_last)] ∅ = Raise shape_error /\
  MapCubed_init [PyMap f1; PyMap s2] ∅ = Raise scale_error.
Proof.
  split.
  - refine (proj1 (construction_rejects_mismatch
                     [PySeq (PyMap <$> odd_last)] ∅ odd_last _) _);
      [reflexivity|].
    exists f1, g3. split; [|split].
    + apply (list_elem_of_lookup_2 _ 0%nat). reflexivity.
    + apply (list_elem_of_lookup_2 _ 2%nat). reflexivity.
    + simpl. discriminate.
  - refine (proj2 (construction_rejects_mismatch
                     [PyMap f1; PyMap s2] ∅ [f1; s2] _) _ _);
      [reflexivity| |].
    + apply same_shape_as_first_true. reflexivity.
    + exists f1, s2. split; [|split].
      * apply (list_elem_of_lookup_2 _ 0%nat). reflexivity.
      * apply (list_elem_of_lookup_2 _ 1%nat). reflexivity.
      * vm_compute. discriminate.
Defined.

(** C3 as stated fails: from no maps at all the constructor returns a cube,
    and that cube has zero maps. *)
Lemma empty_cube_is_constructed :
  exists c : @MapCubed Q hval,
    MapCubed_init [] ∅ = Ok c /\ MapCubed_len c = 0%nat.
Proof. eexists. split; reflexivity. Qed.

Lemma construction_non_map_or_empty_witness :
  MapCubed_init [PyMap f1; PyOther "42"] ∅
  = Raise (ValueError "MapCubed expects pre-constructed map objects.") /\
  MapCubed_init [PySeq []] ∅ = Ok {| _maps := []; _meta := [] |}.
Proof.
  split.
  - apply (proj1 (construction_non_map_or_empty
                    [PyMap f1; PyOther "42"] ∅)).
    exists (PyOther "42"). split.
    + apply (list_elem_of_lookup_2 _ 1%nat). reflexivity.
    + discriminate.
  - apply (proj2 (construction_non_map_or_empty
                    (T := Q) (V := hval) [PySeq []] ∅)).
    reflexivity.
Defined.

(** C4. The code at the failing input: on the three-map cube the default
    call [running_difference()], that is offset 1 and ['mean'], raises the
    unrecognised-keyword [ValueError], as does any explicit ['mean'], while
    ['ahead'] and ['behind'] are accepted. *)
Theorem running_difference_mean_raises :
  MapCubed_running_difference cube123 default_offset
    default_use_offset_for_meta = Raise keyword_error /\
  MapCubed_running_difference cube123 2 "mean" = Raise keyword_error /\
  (exists c', MapCubed_running_difference cube123 1 "ahead" = Ok c') /\
  (exists c', MapCubed_running_difference cube123 1 "behind" = Ok c').
Proof. split_and!; [reflexivity..|eexists; reflexivity|eexists; reflexivity]. Qed.

Lemma as_array_correct_witness :
  (exists v,
     MapCubed_as_array cube123 = Ok (Stack3 v) /\
     shape3 v = (2, 2, MapCubed_len cube123)%nat /\
     forall (t : nat) m, _maps cube123 !! t = Some m ->
       forall y x : nat, item3 v y x t = item (data m) y x) /\
  MapCubed_as_array mutated
  = Raise (ValueError "Not all maps have the same shape.").
Proof.
  split.
  - refine (proj1 (as_array_correct cube123 _) 2%nat 2%nat _); [done|].
    intros m Hm. apply list_elem_of_In in Hm. simpl in Hm.
    destruct Hm as [<-|[<-|[<-|[]]]]; reflexivity.
  - refine (proj2 (as_array_correct mutated _) _); [done|].
    exists f1, g3. split; [|split].
    + apply (list_elem_of_lookup_2 _ 0%nat). reflexivity.
    + apply (list_elem_of_lookup_2 _ 2%nat). reflexivity.
    + simpl. discriminate.
Defined.

Lemma base_difference_correct_witness :
  (shape (data f1) = shape (data f1) ->
   exists c',
     MapCubed_base_difference cube123 (BaseIndex 0) true = Ok c' /\
     MapCubed_len c' = MapCubed_len cube123 /\
     forall (i : nat) m, _maps cube123 !! i = Some m ->
       exists r,
         _maps c' !! i = Some r /\
         shape (data r) = shape (data m) /\
         forall y x : nat,
           (y < (shape (data m)).1)%nat -> (x < (shape (data m)).2)%nat ->
           item (data r) y x
           = sdiv (ssub (item (data m) y x) (item (data f1) y x))
                  (item (data f1) y x)) /\
  (shape (data f1) <> shape (data f1) ->
   MapCubed_base_difference cube123 (BaseIndex 0) true
   = Raise base_shape_error).
Proof.
  apply (base_difference_correct args123 ∅ cube123 (BaseIndex 0) true
           (data f1) f1); reflexivity.
Defined.

(** C7. The code at the failing input: handed a later map before an earlier
    one together with [orderby=None], the constructor still stores the maps
    in date order; the keyword is read and never used, whatever its value. *)
Theorem orderby_is_ignored :
  MapCubed_init [PyMap f2; PyMap f1] {["orderby" := KwNone]}
  = Ok {| _maps := [f1; f2]; _meta := [meta f1; meta f2] |} /\
  forall (args : list (@pyobj Q hval)) (kwargs kwargs' : gmap string kwval),
    MapCubed_init args kwargs = MapCubed_init args kwargs'.
Proof. split; [reflexivity|]. intros args kwargs kwargs'. reflexivity. Qed.

(** C8 as stated fails: every header of the sample cube has the value 1
    under ["cdelt1"], and [meta] returns the list of that one value, not the
    value. *)
Lemma meta_returns_a_list :
  MapCubed_init args123 ∅ = Ok cube123 /\
  (forall h, h ∈ _meta cube123 -> h !! "cdelt1" = Some (HInt 1)) /\
  MapCubed_meta cube123 "cdelt1" = Ok (AList [HInt 1]) /\
  MapCubed_meta cube123 "cdelt1" <> Ok (AValue (HInt 1)).
Proof.
  split_and!; [reflexivity| |reflexivity|discriminate].
  intros h Hh. apply list_elem_of_In in Hh. simpl in Hh.
  destruct Hh as [<-|[<-|[<-|[]]]]; reflexivity.
Qed.

Lemma meta_collapses_to_singleton_list_witness :
  MapCubed_meta cube123 "cdelt1" = Ok (AList [HInt 1]) /\
  MapCubed_meta cube123 "exptime" = Ok (AList [HInt 5; HInt 5; HInt 7]).
Proof.
  split.
  - refine (proj1 (meta_collapses_to_singleton_list cube123 "cdelt1"
                     [HInt 1; HInt 1; HInt 1] _ _) (HInt 1) _).
    + discriminate.
    + repeat constructor.
    + intros v Hv. apply list_elem_of_In in Hv. simpl in Hv.
      destruct Hv as [<-|[<-|[<-|[]]]]; reflexivity.
  - refine (proj2 (meta_collapses_to_singleton_list cube123 "exptime"
                     [HInt 5; HInt 5; HInt 7] _ _) _).
    + discriminate.
    + repeat constructor.
    + exists (HInt 5), (HInt 7). split; [|split].
      * apply (list_elem_of_lookup_2 _ 0%nat). reflexivity.
      * apply (list_elem_of_lookup_2 _ 2%nat). reflexivity.
      * discriminate.
Defined.

(** The slice [cube123[1:]]. *)
Lemma derived_cube_invariants_witness :
  uniform_shape [f2; f3] /\ uniform_scale [f2; f3] /\
  aligned {| _maps := [f2; f3]; _meta := [meta f2; meta f3] |}.
Proof.
  apply (derived_cube_invariants cube123
           {| _maps := [f2; f3]; _meta := [meta f2; meta f3] |}).
  apply (derived_slice cube123 (Slice (Some 1) None None)). reflexivity.
Defined.

Lemma base_difference_keeps_meta_witness :
  exists c',
    MapCubed_base_difference cube123 (BaseMap f2) false = Ok c' /\
    (forall (i : nat) m, _maps cube123 !! i = Some m ->
       exists r, _maps c' !! i = Some r /\ meta r = meta m) /\
    meta <$> _maps c' = meta <$> _maps cube123 /\
    _meta c' = meta <$> _maps cube123.
Proof.
  eexists. split; [reflexivity|].
  apply (base_difference_keeps_meta args123 ∅ cube123 (BaseMap f2) false);
    reflexivity.
Defined.

(** * Further properties of the cube *)

(** ** Construction and indexing *)

Section MoreConstructor.
Context {T : Type} `{ST : Scalar T}.
Context {V : Type} `{EqV : EqDecision V}.
Context `{FO : FrameOps T V}.

Implicit Types (m : GenericMap T V) (maps : list (GenericMap T V)).
Implicit Types (c : @MapCubed T V).
Implicit Types (args : list (@pyobj T V)) (kwargs : gmap string kwval).

(** Lists with the same maps, on which the date tells the maps apart, sort
    to the same list. *)
Lemma sort_by_date_perm maps maps' :
  maps ≡ₚ maps' ->
  (forall m1 m2, m1 ∈ maps -> m2 ∈ maps -> date m1 = date m2 -> m1 = m2) ->
  sort_by date maps = sort_by date maps'.
Proof.
  intros Hp Hinj.
  apply (StronglySorted_unique_strong (fun a b => date a <= date b)).
  - intros m1 m2 H1 H2 H12 H21. apply Hinj.
    + by rewrite sort_by_perm in H1.
    + by rewrite sort_by_perm, <-Hp in H2.
    + lia.
  - apply sort_by_sorted.
  - apply sort_by_sorted.
  - by rewrite !sort_by_perm.
Qed.

Lemma py_getitem_inside {A : Type} (l : list A) (i : Z) :
  0 <= i < Z.of_nat (length l) ->
  exists x, l !! Z.to_nat i = Some x /\ py_getitem l i = Ok x.
Proof.
  intros Hi.
  destruct (lookup_lt_is_Some_2 l (Z.to_nat i)) as [x Hx]; [lia|].
  exists x. split; [done|].
  rewrite <-(Z2Nat.id i) by lia. by apply py_getitem_nat.
Qed.

Lemma py_getitem_wrap {A : Type} (l : list A) (i : Z) :
  - Z.of_nat (length l) <= i < 0 ->
  exists x, l !! Z.to_nat (i + Z.of_nat (length l)) = Some x /\
    py_getitem l i = Ok x.
Proof.
  intros Hi.
  destruct (lookup_lt_is_Some_2 l (Z.to_nat (i + Z.of_nat (length l))))
    as [x Hx]; [lia|].
  exists x. split; [done|]. unfold py_getitem.
  destruct (Z.ltb_spec i 0) as [_|?]; [|lia].
  destruct (Z.ltb_spec (i + Z.of_nat (length l)) 0) as [?|_]; [lia|].
  by rewrite Hx.
Qed.

Lemma py_getitem_outside {A : Type} (l : list A) (i : Z) :
  i < - Z.of_nat (length l) \/ Z.of_nat (length l) <= i ->
  py_getitem l i = Raise index_error.
Proof.
  intros Hi. unfold py_getitem.
  destruct (Z.ltb_spec i 0) as [Hneg|Hpos].
  - destruct (Z.ltb_spec (i + Z.of_nat (length l)) 0) as [_|?]; [done|lia].
  - destruct (Z.ltb_spec i 0) as [?|_]; [lia|].
    rewrite lookup_ge_None_2; [done|lia].
Qed.

(** X1. A successful construction stores a permutation of the maps it was
    handed, in nondecreasing date order, and the maps of one date keep the
    order in which they were handed over. *)
Theorem constructor_sorts_stably args kwargs c :
  MapCubed_init args kwargs = Ok c ->
  exists maps,
    expand_list args = PyMap <$> maps /\
    _maps c ≡ₚ maps /\
    sorted_by date (_maps c) /\
    forall z : Z,
      filter (fun m => date m = z) (_maps c)
      = filter (fun m => date m = z) maps.
Proof.
  intros (maps & Hargs & -> & _)%MapCubed_init_Ok. exists maps. simpl.
  split_and!; [done|apply sort_by_perm|apply sort_by_sorted|].
  intros z. apply sort_by_stable.
Qed.

(** X2. Construction succeeds exactly when every supplied object is a map
    and the maps have one shape and one scale; the keywords play no part. *)
Theorem construction_succeeds_iff args kwargs :
  (exists c, MapCubed_init args kwargs = Ok c) <->
  (exists maps,
     expand_list args = PyMap <$> maps /\
     uniform_shape maps /\ uniform_scale maps).
Proof.
  split.
  - intros [c Hc]. destruct (MapCubed_init_Ok _ _ _ Hc)
      as (maps & Hargs & -> & [Hshape Hscale _ _]).
    exists maps. simpl in *. split_and!; [done| |].
    + eapply uniform_shape_perm; [apply sort_by_perm|done].
    + eapply uniform_scale_perm; [apply sort_by_perm|done].
  - intros (maps & Hargs & Hshape & Hscale).
    rewrite (MapCubed_init_cases _ _ maps)
      by (rewrite Hargs; apply check_maps_maps).
    rewrite (proj2 (same_shape_as_first_true _))
      by (eapply uniform_shape_perm; [symmetry; apply sort_by_perm|done]).
    rewrite (proj2 (same_scale_as_first_true _))
      by (eapply uniform_scale_perm; [symmetry; apply sort_by_perm|done]).
    simpl. eauto.
Qed.

(** X3. Building a cube again from the maps of a constructed cube gives the
    same cube. *)
Theorem reconstruction_is_identity args kwargs c :
  MapCubed_init args kwargs = Ok c -> MapCubed_of_list (_maps c) = Ok c.
Proof.
  intros Hc. destruct (MapCubed_init_Ok _ _ _ Hc)
    as (maps & _ & Heq & [Hshape Hscale _ Hsorted]).
  rewrite (MapCubed_of_list_Ok _ Hsorted Hshape Hscale).
  rewrite Heq. done.
Qed.

(** X4. When the date tells the supplied maps apart, the order in which they
    are handed to the constructor does not matter. *)
Theorem construction_ignores_input_order maps maps' :
  maps ≡ₚ maps' ->
  (forall m1 m2, m1 ∈ maps -> m2 ∈ maps -> date m1 = date m2 -> m1 = m2) ->
  MapCubed_of_list maps = MapCubed_of_list maps'.
Proof.
  intros Hp Hinj. unfold MapCubed_of_list.
  rewrite (MapCubed_init_cases _ _ maps)
    by (rewrite expand_list_maps; apply check_maps_maps).
  rewrite (MapCubed_init_cases _ _ maps')
    by (rewrite expand_list_maps; apply check_maps_maps).
  by rewrite (sort_by_date_perm maps maps' Hp Hinj).
Qed.

(** X5. Integer indexing follows Python: an index in [0, n) gives the map at
    that position, an index in [-n, 0) the map at that position counted from
    the end, and any other index raises [IndexError]. *)
Theorem getitem_int_bounds c (i : Z) :
  (0 <= i < Z.of_nat (MapCubed_len c) ->
   exists m, _maps c !! Z.to_nat i = Some m /\
     MapCubed_getitem c (KInt i) = Ok (OneMap m)) /\
  (- Z.of_nat (MapCubed_len c) <= i < 0 ->
   exists m, _maps c !! Z.to_nat (i + Z.of_nat (MapCubed_len c)) = Some m /\
     MapCubed_getitem c (KInt i) = Ok (OneMap m)) /\
  (i < - Z.of_nat (MapCubed_len c) \/ Z.of_nat (MapCubed_len c) <= i ->
   MapCubed_getitem c (KInt i) = Raise index_error).
Proof.
  unfold MapCubed_len. simpl. split_and!.
  - intros (m & Hm & ->)%py_getitem_inside. by exists m.
  - intros (m & Hm & ->)%py_getitem_wrap. by exists m.
  - intros ->%py_getitem_outside. done.
Qed.

(** X6. In a constructed cube, index 0 holds a map of the earliest date and
    index -1 a map of the latest date. *)
Theorem first_and_last_by_date args kwargs c m :
  MapCubed_init args kwargs = Ok c ->
  m ∈ _maps c ->
  exists first last,
    MapCubed_getitem c (KInt 0) = Ok (OneMap first) /\
    MapCubed_getitem c (KInt (-1)) = Ok (OneMap last) /\
    date first <= date m <= date last.
Proof.
  intros [_ _ _ Hsorted]%MapCubed_init_inv [j Hj]%list_elem_of_lookup_1.
  pose proof (lookup_lt_Some _ _ _ Hj) as Hlen.
  destruct (py_getitem_inside (_maps c) 0) as (first & Hfirst & Hget0); [lia|].
  destruct (py_getitem_wrap (_maps c) (-1)) as (last & Hlast & Hget1); [lia|].
  exists first, last. simpl. rewrite Hget0, Hget1. split_and!; [done..| |].
  - destruct (decide (j = 0%nat)) as [->|Hne].
    + change (Z.to_nat 0) with 0%nat in Hfirst.
      replace first with m by congruence. lia.
    + rewrite sorted_by_lookup in Hsorted.
      apply (Hsorted (Z.to_nat 0) j); [lia|done..].
  - destruct (decide (j = Z.to_nat (-1 + Z.of_nat (length (_maps c)))))
      as [->|Hne].
    + replace last with m by congruence. lia.
    + rewrite sorted_by_lookup in Hsorted.
      apply (Hsorted j (Z.to_nat (-1 + Z.of_nat (length (_maps c)))));
        [lia|done..].
Qed.
End MoreConstructor.

(** ** Slicing *)

Lemma slice_indices_Ok (s : slice) (len : Z) :
  0 <= len ->
  default 1 (slice_step s) <> 0 ->
  exists start stop,
    slice_indices s len = Ok (start, stop, default 1 (slice_step s)) /\
    (0 < default 1 (slice_step s) -> 0 <= start).
Proof.
  intros Hlen Hstep. unfold slice_indices.
  destruct (Z.eqb_spec (default 1 (slice_step s)) 0) as [?|_]; [done|].
  eexists _, _. split; [done|]. intros Hpos.
  destruct (Z.ltb_spec (default 1 (slice_step s)) 0) as [?|_]; [lia|].
  destruct (slice_start s) as [v|]; [|lia].
  destruct (Z.ltb_spec v 0); lia.
Qed.

Lemma sublist_drop_le {A : Type} (l : list A) (i j : nat) :
  (i <= j)%nat -> drop j l `sublist_of` drop i l.
Proof.
  intros Hij. replace j with (i + (j - i))%nat by lia.
  rewrite <-drop_drop. apply sublist_drop.
Qed.

(** The items picked by a forward range form a subsequence. *)
Lemma omap_range_sublist {A : Type} (l : list A) (step : Z) :
  0 < step ->
  forall (fuel : nat) (start stop : Z),
    0 <= start ->
    omap (fun i => l !! Z.to_nat i) (range_from fuel start stop step)
    `sublist_of` drop (Z.to_nat start) l.
Proof.
  intros Hstep. induction fuel as [|fuel IH]; intros start stop Hstart; simpl.
  { apply sublist_nil_l. }
  destruct (Z.ltb_spec step 0) as [?|_]; [lia|].
  destruct (start <? stop); [|apply sublist_nil_l]. simpl.
  specialize (IH (start + step) stop ltac:(lia)).
  destruct (l !! Z.to_nat start) as [x|] eqn:Hx.
  - rewrite (drop_S _ _ _ Hx). apply sublist_skip.
    etransitivity; [exact IH|]. apply sublist_drop_le. lia.
  - etransitivity; [exact IH|]. apply sublist_drop_le. lia.
Qed.

Lemma py_getslice_forward {A : Type} (l : list A) (s : slice) :
  0 < default 1 (slice_step s) ->
  exists sub, py_getslice l s = Ok sub /\ sub `sublist_of` l.
Proof.
  intros Hstep. unfold py_getslice.
  destruct (slice_indices_Ok s (Z.of_nat (length l)))
    as (start & stop & -> & Hstart); [lia..|].
  simpl. eexists; split; [done|].
  etransitivity; [apply omap_range_sublist; auto|]. apply sublist_drop.
Qed.

Lemma py_getslice_elem_of {A : Type} (l sub : list A) (s : slice) (x : A) :
  py_getslice l s = Ok sub -> x ∈ sub -> x ∈ l.
Proof.
  unfold py_getslice. intros Hs Hx.
  apply bind_Ok in Hs as ([[start stop] step] & _ & [= <-]).
  apply list_elem_of_omap in Hx as (i & _ & Hi).
  by eapply list_elem_of_lookup_2.
Qed.

Lemma sorted_by_sublist {A : Type} (k : A -> Z) (l1 l2 : list A) :
  l1 `sublist_of` l2 -> sorted_by k l2 -> sorted_by k l1.
Proof.
  unfold sorted_by. induction 1 as [|x l1 l2 Hsub IH|x l1 l2 Hsub IH];
    intros Hs; [done| |].
  - apply StronglySorted_inv in Hs as [Hs Hx]. constructor; [by apply IH|].
    rewrite Forall_forall in Hx. apply Forall_forall. intros y Hy.
    apply Hx. eapply elem_of_submseteq; [exact Hy|].
    by apply sublist_submseteq.
  - apply StronglySorted_inv in Hs as [Hs _]. by apply IH.
Qed.

Section Slicing.
Context {T : Type} `{ST : Scalar T}.
Context {V : Type} `{EqV : EqDecision V}.
Context `{FO : FrameOps T V}.

Implicit Types (m : GenericMap T V) (c : @MapCubed T V).
Implicit Types (args : list (@pyobj T V)) (kwargs : gmap string kwval).

(** Maps drawn from a uniform list make a cube. *)
Lemma MapCubed_of_list_drawn (maps sub : list (GenericMap T V)) :
  uniform_shape maps -> uniform_scale maps ->
  (forall m, m ∈ sub -> m ∈ maps) ->
  MapCubed_of_list sub
  = Ok {| _maps := sort_by date sub; _meta := meta <$> sort_by date sub |}.
Proof.
  intros Hshape Hscale Hsub. unfold MapCubed_of_list.
  rewrite (MapCubed_init_cases _ _ sub)
    by (rewrite expand_list_maps; apply check_maps_maps).
  rewrite (proj2 (same_shape_as_first_true _)).
  2:{ intros m1 m2 H1 H2. rewrite sort_by_perm in H1, H2.
      apply Hshape; by apply Hsub. }
  rewrite (proj2 (same_scale_as_first_true _)); [done|].
  intros m1 m2 H1 H2. rewrite sort_by_perm in H1, H2.
  apply Hscale; by apply Hsub.
Qed.

(** X7. A slice with a positive step of a constructed cube is the cube of
    the selected maps, in their order in the cube. *)
Theorem forward_slice_keeps_order args kwargs c (s : slice) :
  MapCubed_init args kwargs = Ok c ->
  0 < default 1 (slice_step s) ->
  exists sub,
    py_getslice (_maps c) s = Ok sub /\
    sub `sublist_of` _maps c /\
    MapCubed_getitem c (KSlice s)
    = Ok (SubCube {| _maps := sub; _meta := meta <$> sub |}).
Proof.
  intros [Hshape Hscale _ Hsorted]%MapCubed_init_inv Hstep.
  destruct (py_getslice_forward (_maps c) s Hstep) as (sub & Hsub & Hsl).
  exists sub. split_and!; [done..|]. simpl. rewrite Hsub. simpl.
  rewrite (MapCubed_of_list_drawn (_maps c) sub Hshape Hscale).
  2:{ intros m Hm. eapply elem_of_submseteq; [exact Hm|].
      by apply sublist_submseteq. }
  rewrite (sort_by_id date sub); [done|].
  by eapply sorted_by_sublist.
Qed.

(** X8. Slicing a constructed cube fails only for a zero step: every other
    slice gives a cube made of maps of the sliced cube, again in date order
    whatever the direction of the slice. *)
Theorem slice_of_cube args kwargs c (s : slice) :
  MapCubed_init args kwargs = Ok c ->
  (default 1 (slice_step s) <> 0 ->
   exists c',
     MapCubed_getitem c (KSlice s) = Ok (SubCube c') /\
     (forall m, m ∈ _maps c' -> m ∈ _maps c) /\
     sorted_by date (_maps c')) /\
  (default 1 (slice_step s) = 0 ->
   MapCubed_getitem c (KSlice s)
   = Raise (ValueError "slice step cannot be zero")).
Proof.
  intros [Hshape Hscale _ _]%MapCubed_init_inv. split.
  - intros Hstep. simpl. unfold py_getslice at 1.
    destruct (slice_indices_Ok s (Z.of_nat (length (_maps c)))
                ltac:(lia) Hstep) as (start & stop & Hind & _).
    destruct (py_getslice (_maps c) s) as [sub|e] eqn:Hsub.
    2:{ unfold py_getslice in Hsub. by rewrite Hind in Hsub. }
    unfold py_getslice in Hsub. rewrite Hind in *. simpl in *.
    injection Hsub as Hsub. rewrite Hsub.
    rewrite (MapCubed_of_list_drawn (_maps c) sub Hshape Hscale).
    2:{ intros m Hm. rewrite <-Hsub in Hm.
        apply list_elem_of_omap in Hm as (i & _ & Hi).
        by eapply list_elem_of_lookup_2. }
    simpl. eexists; split; [done|]. simpl. split; [|apply sort_by_sorted].
    intros m Hm. rewrite sort_by_perm, <-Hsub in Hm.
    apply list_elem_of_omap in Hm as (i & _ & Hi).
    by eapply list_elem_of_lookup_2.
  - intros Hstep. simpl. unfold py_getslice, slice_indices.
    by rewrite Hstep.
Qed.
End Slicing.

(** ** Accessors, headers and frame-level transforms *)

Lemma comprehension_inv {A B : Type} (f : A -> result B) (l : list A)
  (ys : list B) :
  comprehension f l = Ok ys -> Forall2 (fun x y => f x = Ok y) l ys.
Proof.
  revert ys. induction l as [|x l IH]; intros ys; simpl.
  { intros [= <-]. constructor. }
  intros Hc. apply bind_Ok in Hc as (y & Hy & Hc).
  apply bind_Ok in Hc as (ys' & Hys & [= <-]). constructor; [done|by apply IH].
Qed.

(** A comprehension stops at the first item whose value raises. *)
Lemma comprehension_Raise {A B : Type} (f : A -> result B)
  (pre post : list A) (x : A) (e : exn) :
  (forall a, a ∈ pre -> exists b, f a = Ok b) ->
  f x = Raise e ->
  comprehension f (pre ++ x :: post) = Raise e.
Proof.
  intros Hpre Hx. induction pre as [|a pre IH]; simpl.
  { by rewrite Hx. }
  destruct (Hpre a) as [b ->]; [by left|]. simpl.
  rewrite IH; [done|]. intros a' Ha'. apply Hpre. by right.
Qed.

Section Accessors.
Context {T : Type} `{ST : Scalar T}.
Context {V : Type} `{EqV : EqDecision V}.
Context `{FO : FrameOps T V}.

Implicit Types (m : GenericMap T V) (c : @MapCubed T V).
Implicit Types (args : list (@pyobj T V)) (kwargs : gmap string kwval).

Lemma aligned_meta c : aligned c -> _meta c = meta <$> _maps c.
Proof.
  intros Ha. apply list_eq. intros i. by rewrite Ha, list_lookup_fmap.
Qed.

(** After a successful transform of every map, the new cube holds the
    transformed maps. *)
Lemma transformed_cube (f : GenericMap T V -> result (GenericMap T V)) c c' :
  (comprehension f (_maps c) ≫= MapCubed_of_list) = Ok c' ->
  MapCubed_len c' = MapCubed_len c /\
  exists new_maps,
    Forall2 (fun m m' => f m = Ok m') (_maps c) new_maps /\
    _maps c' ≡ₚ new_maps.
Proof.
  intros Hop. apply bind_Ok in Hop as (new_maps & Hnew & Hc').
  apply comprehension_inv in Hnew. unfold MapCubed_of_list in Hc'.
  apply MapCubed_init_Ok in Hc' as (maps & Hargs & -> & _).
  rewrite expand_list_maps in Hargs.
  assert (new_maps = maps) as <-.
  { apply (f_equal check_maps) in Hargs.
    rewrite !check_maps_maps in Hargs. congruence. }
  unfold MapCubed_len. simpl. split.
  - rewrite length_sort_by. symmetry. by eapply Forall2_length.
  - exists new_maps. split; [done|apply sort_by_perm].
Qed.

(** X9. The property [date] of a constructed cube lists the dates of its
    maps, one per map and in map order, and these never decrease. *)
Theorem date_is_ascending args kwargs c :
  MapCubed_init args kwargs = Ok c ->
  length (MapCubed_date c) = MapCubed_len c /\
  (forall (i : nat) m, _maps c !! i = Some m ->
     MapCubed_date c !! i = Some (date m)) /\
  forall (i j : nat) (d1 d2 : Z),
    (i <= j)%nat -> MapCubed_date c !! i = Some d1 ->
    MapCubed_date c !! j = Some d2 -> d1 <= d2.
Proof.
  intros [_ _ _ Hsorted]%MapCubed_init_inv. unfold MapCubed_date, MapCubed_len.
  split_and!.
  - apply length_fmap.
  - intros i m Hm. by rewrite list_lookup_fmap, Hm.
  - intros i j d1 d2 Hij H1 H2. rewrite list_lookup_fmap in H1, H2.
    destruct (_maps c !! i) as [m1|] eqn:Hm1; [|done].
    destruct (_maps c !! j) as [m2|] eqn:Hm2; [|done].
    simplify_eq/=. destruct (decide (i = j)) as [->|Hne].
    + replace m2 with m1 by congruence. lia.
    + rewrite sorted_by_lookup in Hsorted.
      apply (Hsorted i j); [lia|done..].
Qed.

(** X10. The property [scale] of a constructed cube is the scale of every
    one of its maps; on a cube without maps it raises [IndexError]. *)
Theorem scale_of_every_map args kwargs c :
  MapCubed_init args kwargs = Ok c ->
  (forall m, m ∈ _maps c -> MapCubed_scale c = Ok (scale m)) /\
  (_maps c = [] -> MapCubed_scale c = Raise index_error).
Proof.
  intros [_ Hscale _ _]%MapCubed_init_inv. unfold MapCubed_scale. split.
  - intros m Hm. destruct (_maps c) as [|m0 maps] eqn:Hmaps.
    { by apply elem_of_nil in Hm. }
    rewrite (py_getitem_0 (m0 :: maps) m0) by done. simpl.
    f_equal. apply Hscale; [by left|done].
  - intros ->. by rewrite py_getitem_nil.
Qed.

(** X11. [meta(key)] raises [KeyError] for the key as soon as one header of
    the cube lacks it. *)
Theorem meta_missing_key c (k : string) (h : gmap string V) :
  h ∈ _meta c -> h !! k = None ->
  MapCubed_meta c k = Raise (KeyError k).
Proof.
  intros Hh Hk. unfold MapCubed_meta.
  assert (exists pre post h',
            _meta c = pre ++ h' :: post /\ h' !! k = None /\
            forall a, a ∈ pre -> exists v, a !! k = Some v)
    as (pre & post & h' & -> & Hh' & Hpre).
  { clear -Hh Hk. induction Hh as [h l|h h0 l Hh IH].
    - exists [], l, h. split_and!; [done..|]. intros a Ha.
      by apply elem_of_nil in Ha.
    - destruct (h0 !! k) as [v|] eqn:Hv.
      + destruct (IH Hk) as (pre & post & h' & -> & Hh' & Hpre).
        exists (h0 :: pre), post, h'. split_and!; [done..|].
        intros a [->|Ha]%elem_of_cons; eauto.
      + exists [], l, h0. split_and!; [done..|]. intros a Ha.
        by apply elem_of_nil in Ha. }
  rewrite (comprehension_Raise _ pre post h' (KeyError k)); [done| |].
  - intros a Ha. destruct (Hpre a Ha) as [v ->]. eauto.
  - by rewrite Hh'.
Qed.

(** X12. On a cube without headers [meta(key)] raises [IndexError],
    whatever the key: the collapsing test passes on the empty list and
    then reads its first item. *)
Theorem meta_of_empty_cube c (k : string) :
  _meta c = [] -> MapCubed_meta c k = Raise index_error.
Proof. intros Hc. unfold MapCubed_meta. rewrite Hc. simpl. done. Qed.

(** X13. [all_meta()] of a constructed cube is the header list the
    constructor stored: header [i] is the header of map [i]. *)
Theorem all_meta_is_stored_meta args kwargs c :
  MapCubed_init args kwargs = Ok c ->
  MapCubed_all_meta c = _meta c /\
  length (_meta c) = MapCubed_len c.
Proof.
  intros [_ _ Haligned _]%MapCubed_init_inv. unfold MapCubed_all_meta.
  rewrite (aligned_meta c Haligned). split; [done|]. apply length_fmap.
Qed.

(** X14. A successful [submap], [superpixel] or [resample] gives a cube of
    as many maps as before, and these are the frame-level transforms of the
    maps of the cube, one for each. *)
Theorem transforms_keep_length c c' :
  (forall range_a range_b,
     MapCubed_submap c range_a range_b = Ok c' ->
     MapCubed_len c' = MapCubed_len c /\
     exists new_maps,
       Forall2 (fun m m' => frame_submap m range_a range_b = Ok m')
         (_maps c) new_maps /\
       _maps c' ≡ₚ new_maps) /\
  (forall dimensions method,
     MapCubed_superpixel c dimensions method = Ok c' ->
     MapCubed_len c' = MapCubed_len c /\
     exists new_maps,
       Forall2 (fun m m' => frame_superpixel m dimensions method = Ok m')
         (_maps c) new_maps /\
       _maps c' ≡ₚ new_maps) /\
  (forall dimensions method,
     MapCubed_resample c dimensions method = Ok c' ->
     MapCubed_len c' = MapCubed_len c /\
     exists new_maps,
       Forall2 (fun m m' => frame_resample m dimensions method = Ok m')
         (_maps c) new_maps /\
       _maps c' ≡ₚ new_maps).
Proof.
  split_and!.
  - intros range_a range_b Hop.
    by apply (transformed_cube (fun m => frame_submap m range_a range_b)).
  - intros dimensions method Hop.
    by apply (transformed_cube (fun m => frame_superpixel m dimensions method)).
  - intros dimensions method Hop.
    by apply (transformed_cube (fun m => frame_resample m dimensions method)).
Qed.

(** X15. When the frame-level transform raises on a map and succeeds on the
    maps before it, [submap], [superpixel] and [resample] raise that
    exception and build no cube. *)
Theorem transforms_propagate_errors c
  (pre post : list (GenericMap T V)) m (e : exn) :
  _maps c = pre ++ m :: post ->
  (forall range_a range_b,
     (forall a, a ∈ pre -> exists b, frame_submap a range_a range_b = Ok b) ->
     frame_submap m range_a range_b = Raise e ->
     MapCubed_submap c range_a range_b = Raise e) /\
  (forall dimensions method,
     (forall a, a ∈ pre ->
        exists b, frame_superpixel a dimensions method = Ok b) ->
     frame_superpixel m dimensions method = Raise e ->
     MapCubed_superpixel c dimensions method = Raise e) /\
  (forall dimensions method,
     (forall a, a ∈ pre ->
        exists b, frame_resample a dimensions method = Ok b) ->
     frame_resample m dimensions method = Raise e ->
     MapCubed_resample c dimensions method = Raise e).
Proof.
  intros Hmaps. split_and!.
  - intros range_a range_b Hpre Hm. unfold MapCubed_submap. rewrite Hmaps.
    by rewrite (comprehension_Raise _ pre post m e).
  - intros dimensions method Hpre Hm. unfold MapCubed_superpixel.
    rewrite Hmaps. by rewrite (comprehension_Raise _ pre post m e).
  - intros dimensions method Hpre Hm. unfold MapCubed_resample.
    rewrite Hmaps. by rewrite (comprehension_Raise _ pre post m e).
Qed.
End Accessors.

(** ** The volume, once more *)

Section MoreVolume.
Context {T : Type} `{ST : Scalar T}.
Context {V : Type} `{EqV : EqDecision V}.
Context `{FO : FrameOps T V}.

Implicit Types (m : GenericMap T V) (c : @MapCubed T V).
Implicit Types (args : list (@pyobj T V)) (kwargs : gmap string kwval).

(** The assignment [vol[:, :, i] = m.data] succeeds exactly on the frames
    that fit the slice. *)
Lemma assign_frame_cases (vol : ndarray3 T) (i : nat) m (rows cols n : nat) :
  shape3 vol = (rows, cols, n) ->
  (fits_slice rows cols m /\
   assign_frame vol i (data m)
   = Ok {| shape3 := (rows, cols, n);
           item3 := fun y x t =>
             if decide (t = i) then broadcast_item (data m) y x
             else item3 vol y x t |}) \/
  (~ fits_slice rows cols m /\
   assign_frame vol i (data m) = Raise broadcast_error).
Proof.
  intros Hvol. unfold assign_frame, fits_slice. rewrite Hvol.
  repeat case_bool_decide; simpl; first [left; split; [tauto|done]
                                         |right; split; [tauto|done]].
Qed.

Lemma assign_frames_fitting (rows cols n : nat) (l : list (GenericMap T V)) :
  (forall m, m ∈ l -> fits_slice rows cols m) ->
  forall (s : nat) (vol : ndarray3 T),
    shape3 vol = (rows, cols, n) ->
    exists v,
      for_each (fun vol '(i, m) => assign_frame vol i (data m))
        (zip (seq s (length l)) l) vol = Ok v /\
      shape3 v = (rows, cols, n) /\
      (forall (t : nat) m, l !! t = Some m ->
         forall y x : nat,
           item3 v y x (s + t)%nat = broadcast_item (data m) y x) /\
      (forall t y x : nat, (t < s)%nat -> item3 v y x t = item3 vol y x t).
Proof.
  induction l as [|m l IH]; intros Hfits s vol Hvol.
  { exists vol. split_and!; [done..| |done]. intros t m Ht. done. }
  simpl.
  destruct (assign_frame_cases vol s m rows cols n Hvol)
    as [[_ ->]|[Hno _]]; [|destruct Hno; apply Hfits; by left].
  simpl.
  edestruct (IH (fun m' Hm' => Hfits m' (list_elem_of_further _ _ _ Hm'))
               (S s)) as (v & Hloop & Hv & Hitems & Hold); [|rewrite Hloop].
  { done. }
  exists v. split_and!; [done..| |].
  - intros [|t] m' Ht y x; simpl in Ht.
    + injection Ht as <-. rewrite Nat.add_0_r, Hold by lia. simpl.
      by rewrite decide_True.
    + rewrite <-Nat.add_succ_comm. by apply Hitems.
  - intros t y x Ht. rewrite Hold by lia. simpl.
    by rewrite decide_False by lia.
Qed.

Lemma assign_frames_misfit (rows cols n : nat) (l : list (GenericMap T V)) :
  (exists m, m ∈ l /\ ~ fits_slice rows cols m) ->
  forall (s : nat) (vol : ndarray3 T),
    shape3 vol = (rows, cols, n) ->
    for_each (fun vol '(i, m) => assign_frame vol i (data m))
      (zip (seq s (length l)) l) vol = Raise broadcast_error.
Proof.
  induction l as [|m l IH]; intros (m' & Hm' & Hno) s vol Hvol.
  { by apply elem_of_nil in Hm'. }
  simpl.
  destruct (assign_frame_cases vol s m rows cols n Hvol)
    as [[Hfit ->]|[_ ->]]; [|done].
  simpl. apply IH; [|done].
  apply elem_of_cons in Hm' as [->|Hm']; [done|]. by exists m'.
Qed.

(** X16. On a constructed cube with at least one map the shape test of
    [as_array] holds and a volume is returned, of the frame shape of the
    first map and as deep as the cube is long. *)
Theorem as_array_of_constructed args kwargs c (first : GenericMap T V) :
  MapCubed_init args kwargs = Ok c ->
  _maps c !! 0%nat = Some first ->
  all_maps_same_shape c = true /\
  exists v,
    MapCubed_as_array c = Ok (Stack3 v) /\
    shape3 v
    = ((shape (data first)).1, (shape (data first)).2, MapCubed_len c).
Proof.
  intros [Hshape _ _ _]%MapCubed_init_inv Hfirst.
  split; [by apply same_shape_as_first_true|].
  destruct (as_array_uniform c (shape (data first)).1 (shape (data first)).2)
    as (v & Hv & Hs & _).
  - intros Hnil. by rewrite Hnil in Hfirst.
  - intros m Hm. rewrite <-surjective_pairing. apply Hshape; [done|].
    by eapply list_elem_of_lookup_2.
  - by exists v.
Qed.

(** X17. On a constructed cube with at least one map the property [data]
    and [as_array] return volumes of one shape that agree at every pixel of
    every frame. *)
Theorem data_agrees_with_as_array args kwargs c (first : GenericMap T V) :
  MapCubed_init args kwargs = Ok c ->
  _maps c !! 0%nat = Some first ->
  exists v w,
    MapCubed_as_array c = Ok (Stack3 v) /\
    MapCubed_data c = Ok w /\
    shape3 v = shape3 w /\
    forall y x t : nat,
      (y < (shape (data first)).1)%nat ->
      (x < (shape (data first)).2)%nat ->
      (t < MapCubed_len c)%nat ->
      item3 v y x t = item3 w y x t.
Proof.
  intros [Hshape _ _ _]%MapCubed_init_inv Hfirst.
  assert (_maps c <> []) as Hne.
  { intros Hnil. by rewrite Hnil in Hfirst. }
  assert (forall m, m ∈ _maps c ->
            shape (data m) = ((shape (data first)).1, (shape (data first)).2))
    as Hall.
  { intros m Hm. rewrite <-surjective_pairing. apply Hshape; [done|].
    by eapply list_elem_of_lookup_2. }
  destruct (as_array_uniform c _ _ Hne Hall) as (v & Hv & Hvs & Hvi).
  destruct (MapCubed_data_uniform c _ _ Hne Hall) as (w & Hw & Hws & Hwi).
  exists v, w. split_and!; [done..|congruence|].
  intros y x t Hy Hx Ht.
  destruct (lookup_lt_is_Some_2 (_maps c) t) as [m Hm]; [done|].
  by rewrite (Hvi t m Hm), (Hwi t m Hm).
Qed.

(** X18. A cube without maps has no volume: [as_array] raises numpy's axis
    error, because the array made of no frames has one axis only, and the
    property [data] raises [IndexError]. *)
Theorem empty_cube_has_no_volume c :
  _maps c = [] ->
  MapCubed_as_array c = Raise axis_error /\
  MapCubed_data c = Raise index_error.
Proof.
  intros Hnil. unfold MapCubed_as_array, all_maps_same_shape, MapCubed_data.
  rewrite Hnil. simpl. done.
Qed.

(** X19. The property [data] does not test the shapes: when every map fits
    the frame shape of the first map, axis by axis the same length or
    length 1, it returns a volume into which the smaller frames are
    stretched, while [as_array] refuses the cube as soon as two maps differ
    in shape. *)
Theorem data_stretches_small_frames c (first : GenericMap T V) :
  _maps c !! 0%nat = Some first ->
  (forall m, m ∈ _maps c ->
     fits_slice (shape (data first)).1 (shape (data first)).2 m) ->
  (exists v,
     MapCubed_data c = Ok v /\
     shape3 v
     = ((shape (data first)).1, (shape (data first)).2, MapCubed_len c) /\
     forall (t : nat) m, _maps c !! t = Some m ->
       forall y x : nat, item3 v y x t = broadcast_item (data m) y x) /\
  ((exists m, m ∈ _maps c /\ shape (data m) <> shape (data first)) ->
   MapCubed_as_array c
   = Raise (ValueError "Not all maps have the same shape.")).
Proof.
  intros Hfirst Hfits. split.
  - unfold MapCubed_data, MapCubed_len.
    rewrite (py_getitem_0 _ _ Hfirst).
    change (Ok first ≫= ?f) with (f first). cbv beta.
    set (zeros := {| shape3 := _; item3 := _ |}).
    destruct (assign_frames_fitting _ _ (length (_maps c)) (_maps c)
                Hfits 0%nat zeros eq_refl) as (v & Hloop & Hv & Hitems & _).
    exists v. split_and!; [done..|]. intros t m Ht. by apply (Hitems t).
  - intros (m & Hm & Hne). apply as_array_mismatch. intros Hu.
    destruct Hne. apply Hu; [done|]. by eapply list_elem_of_lookup_2.
Qed.

(** X20. When some map does not fit the frame shape of the first map, the
    property [data] raises numpy's broadcast [ValueError]. *)
Theorem data_rejects_misfits c (first : GenericMap T V) m :
  _maps c !! 0%nat = Some first ->
  m ∈ _maps c ->
  ~ fits_slice (shape (data first)).1 (shape (data first)).2 m ->
  MapCubed_data c = Raise broadcast_error.
Proof.
  intros Hfirst Hm Hno. unfold MapCubed_data, MapCubed_len.
  rewrite (py_getitem_0 _ _ Hfirst).
  change (Ok first ≫= ?f) with (f first). cbv beta.
  apply (assign_frames_misfit (shape (data first)).1 (shape (data first)).2
           (length (_maps c))); [by exists m|done].
Qed.
End MoreVolume.

(** ** Differences and reductions, once more *)

Lemma py_getitem_valid {A : Type} (l : list A) (i : Z) :
  - Z.of_nat (length l) <= i < Z.of_nat (length l) ->
  exists x, x ∈ l /\ py_getitem l i = Ok x.
Proof.
  intros Hi. destruct (Z.lt_ge_cases i 0).
  - destruct (py_getitem_wrap l i) as (x & Hx & ->); [lia|].
    exists x. split; [by eapply list_elem_of_lookup_2|done].
  - destruct (py_getitem_inside l i) as (x & Hx & ->); [lia|].
    exists x. split; [by eapply list_elem_of_lookup_2|done].
Qed.

Lemma py_getitem_fmap {A B : Type} (f : A -> B) (l : list A) (i : Z) :
  py_getitem (f <$> l) i
  = match py_getitem l i with
    | Ok x => Ok (f x)
    | Raise e => Raise e
    end.
Proof.
  unfold py_getitem. rewrite length_fmap, list_lookup_fmap.
  destruct (_ <? 0); [done|]. by destruct (l !! _).
Qed.

Lemma py_range_nonpositive (n : Z) : n <= 0 -> py_range n = [].
Proof.
  intros Hn. unfold py_range. by replace (Z.to_nat n) with 0%nat by lia.
Qed.

Lemma py_range_split (a b : nat) :
  py_range (Z.of_nat (a + S b))
  = py_range (Z.of_nat a) ++ Z.of_nat a :: (Z.of_nat <$> seq (S a) b).
Proof. rewrite !py_range_nat, seq_app, fmap_app. done. Qed.

Section MoreDifferences.
Context {T : Type} `{ST : Scalar T}.
Context {V : Type} `{EqV : EqDecision V}.
Context `{FO : FrameOps T V}.

Implicit Types (m a b r : GenericMap T V) (c : @MapCubed T V).
Implicit Types (args : list (@pyobj T V)) (kwargs : gmap string kwval).

Lemma differences_meta c (k : nat) (use_offset_for_meta : string)
  (new_mc : list (GenericMap T V)) :
  length new_mc = (length (_maps c) - k)%nat ->
  differences (_maps c) k use_offset_for_meta new_mc ->
  meta <$> new_mc
  = if decide (use_offset_for_meta = "ahead")
    then drop k (meta <$> _maps c)
    else take (length (_maps c) - k) (meta <$> _maps c).
Proof.
  intros Hlen Hdiff. apply list_eq. intros i.
  rewrite list_lookup_fmap.
  destruct (new_mc !! i) as [r|] eqn:Hr.
  - destruct (Hdiff i r Hr) as (a & b & Ha & Hb & _ & Hm).
    pose proof (lookup_lt_Some _ _ _ Hr) as Hi. simpl. rewrite Hm.
    unfold picked_meta. case_decide.
    + by rewrite lookup_drop, list_lookup_fmap, (Nat.add_comm k i), Ha.
    + rewrite lookup_take_lt by lia. by rewrite list_lookup_fmap, Hb.
  - apply lookup_ge_None in Hr. simpl. symmetry. case_decide.
    + apply lookup_ge_None. rewrite length_drop, length_fmap. lia.
    + apply lookup_take_ge. lia.
Qed.

(** The passes of [running_difference] for a negative offset that does not
    reach before the first map all succeed: the index ahead wraps around. *)
Lemma running_difference_wrapped c (offset : Z) (use_offset_for_meta : string) :
  uniform_shape (_maps c) ->
  use_offset_for_meta = "ahead" \/ use_offset_for_meta = "behind" ->
  - Z.of_nat (length (_maps c)) <= offset < 0 ->
  forall n : nat,
    (n <= length (_maps c))%nat ->
    exists acc,
      for_each (running_difference_step c offset use_offset_for_meta)
        (py_range (Z.of_nat n)) [] = Ok acc.
Proof.
  intros Hshape Hchoice Hoff. induction n as [|n IH]; intros Hn.
  { by exists []. }
  destruct IH as [acc Hacc]; [lia|].
  destruct (py_getitem_valid (_maps c) (Z.of_nat n + offset))
    as (a & Ha & Hga); [lia|].
  destruct (py_getitem_valid (_maps c) (Z.of_nat n))
    as (b & Hb & Hgb); [lia|].
  destruct (np_subtract_same_shape (data a) (data b)) as (d & Hsub & _);
    [by apply Hshape|].
  rewrite py_range_S, for_each_app, Hacc. simpl.
  unfold running_difference_step. rewrite Hga, Hgb. simpl. rewrite Hsub.
  simpl. destruct Hchoice as [-> | ->]; simpl; eauto.
Qed.

(** X21. With an offset of at least the length of the cube the loop of
    [running_difference] runs no pass: the empty cube is returned, and the
    keyword [use_offset_for_meta] is not looked at, recognised or not. *)
Theorem running_difference_beyond_length c (offset : Z)
  (use_offset_for_meta : string) :
  Z.of_nat (MapCubed_len c) <= offset ->
  MapCubed_running_difference c offset use_offset_for_meta
  = Ok {| _maps := []; _meta := [] |}.
Proof.
  unfold MapCubed_len. intros Hoff. unfold MapCubed_running_difference.
  rewrite py_range_nonpositive by lia. done.
Qed.

(** X22. For a constructed cube of [n] maps and an offset [k <= n], the
    headers of the running difference are the headers of the cube without
    the first [k] under ['ahead'] and without the last [k] under
    ['behind']. *)
Theorem running_difference_headers args kwargs c (k : nat) :
  MapCubed_init args kwargs = Ok c ->
  (k <= MapCubed_len c)%nat ->
  (exists c',
     MapCubed_running_difference c (Z.of_nat k) "ahead" = Ok c' /\
     _meta c' = drop k (_meta c)) /\
  (exists c',
     MapCubed_running_difference c (Z.of_nat k) "behind" = Ok c' /\
     _meta c' = take (MapCubed_len c - k) (_meta c)).
Proof.
  intros Hinv%MapCubed_init_inv Hk. unfold MapCubed_len in *.
  rewrite (aligned_meta c (inv_aligned c Hinv)). split.
  - destruct (running_difference_spec c k "ahead" Hinv Hk)
      as (new_mc & Hrun & Hlen & Hdiff); [by left|].
    eexists; split; [exact Hrun|]. simpl.
    by rewrite (differences_meta c k "ahead" new_mc Hlen Hdiff).
  - destruct (running_difference_spec c k "behind" Hinv Hk)
      as (new_mc & Hrun & Hlen & Hdiff); [by right|].
    eexists; split; [exact Hrun|]. simpl.
    by rewrite (differences_meta c k "behind" new_mc Hlen Hdiff).
Qed.

(** X23. For a constructed cube and an offset from 0 up to, but not
    including, its length, every value of [use_offset_for_meta] other than
    ['ahead'] and ['behind'] makes [running_difference] raise the
    unrecognised-keyword [ValueError]. *)
Theorem unrecognised_keyword_raises args kwargs c (k : nat)
  (use_offset_for_meta : string) :
  MapCubed_init args kwargs = Ok c ->
  (k < MapCubed_len c)%nat ->
  use_offset_for_meta <> "ahead" -> use_offset_for_meta <> "behind" ->
  MapCubed_running_difference c (Z.of_nat k) use_offset_for_meta
  = Raise keyword_error.
Proof.
  intros Hinv%MapCubed_init_inv Hk Ha Hb.
  by apply running_difference_unrecognised.
Qed.

(** X24. For a constructed cube with at least one map, a negative offset
    makes [running_difference] raise [IndexError] under ['ahead'] and
    ['behind']: the loop runs past the last map. *)
Theorem negative_offset_raises args kwargs c (offset : Z)
  (use_offset_for_meta : string) :
  MapCubed_init args kwargs = Ok c ->
  _maps c <> [] ->
  offset < 0 ->
  use_offset_for_meta = "ahead" \/ use_offset_for_meta = "behind" ->
  MapCubed_running_difference c offset use_offset_for_meta
  = Raise index_error.
Proof.
  intros [Hshape _ _ _]%MapCubed_init_inv Hne Hoff Hchoice.
  assert (0 < length (_maps c))%nat as Hlen.
  { destruct (_maps c); [done|simpl; lia]. }
  unfold MapCubed_running_difference.
  destruct (Z.lt_ge_cases offset (- Z.of_nat (length (_maps c))))
    as [Hfar|Hnear].
  - replace (Z.of_nat (length (_maps c)) - offset)
      with (Z.of_nat (0 + S (Z.to_nat (Z.of_nat (length (_maps c)) - offset) - 1)))
      by lia.
    rewrite py_range_split. simpl app. rewrite for_each_cons.
    assert (running_difference_step c offset use_offset_for_meta []
              (Z.of_nat 0) = Raise index_error) as ->; [|done].
    unfold running_difference_step.
    by rewrite (py_getitem_outside (_maps c) (Z.of_nat 0 + offset)) by lia.
  - replace (Z.of_nat (length (_maps c)) - offset)
      with (Z.of_nat (length (_maps c) + S (Z.to_nat (- offset) - 1)))
      by lia.
    rewrite py_range_split, for_each_app.
    destruct (running_difference_wrapped c offset use_offset_for_meta
                Hshape Hchoice ltac:(lia) (length (_maps c)) ltac:(lia))
      as [acc ->].
    change (Ok acc ≫= ?f) with (f acc). rewrite for_each_cons.
    assert (running_difference_step c offset use_offset_for_meta acc
              (Z.of_nat (length (_maps c))) = Raise index_error) as ->;
      [|done].
    unfold running_difference_step.
    destruct (py_getitem_valid (_maps c)
                (Z.of_nat (length (_maps c)) + offset)) as (a & _ & ->);
      [lia|].
    change (Ok a ≫= ?f) with (f a). cbv beta.
    by rewrite (py_getitem_outside (_maps c) (Z.of_nat (length (_maps c))))
      by lia.
Qed.

(** X25. [base_difference] raises [IndexError] when the base is an index
    outside the cube, and on a cube without maps whatever the base. *)
Theorem base_difference_index_errors c (fraction : bool) :
  (forall i : Z,
     i < - Z.of_nat (MapCubed_len c) \/ Z.of_nat (MapCubed_len c) <= i ->
     MapCubed_base_difference c (BaseIndex i) fraction = Raise index_error) /\
  (forall base : base_arg,
     _maps c = [] ->
     MapCubed_base_difference c base fraction = Raise index_error).
Proof.
  unfold MapCubed_len. split.
  - intros i Hi. unfold MapCubed_base_difference. simpl.
    by rewrite (py_getitem_outside _ _ Hi).
  - intros base Hnil. unfold MapCubed_base_difference, base_data_of.
    rewrite Hnil. destruct base as [i|m]; simpl.
    + by rewrite py_getitem_nil.
    + done.
Qed.

(** X26. On a constructed cube every index from [-n] up to [n - 1] is a
    good base: [base_difference] returns a cube of the same length. *)
Theorem base_difference_by_index_succeeds args kwargs c (i : Z)
  (fraction : bool) :
  MapCubed_init args kwargs = Ok c ->
  - Z.of_nat (MapCubed_len c) <= i < Z.of_nat (MapCubed_len c) ->
  exists c',
    MapCubed_base_difference c (BaseIndex i) fraction = Ok c' /\
    MapCubed_len c' = MapCubed_len c.
Proof.
  unfold MapCubed_len. intros Hinv%MapCubed_init_inv Hi.
  destruct (py_getitem_valid (_maps c) i Hi) as (m & Hm & Hget).
  destruct (lookup_lt_is_Some_2 (_maps c) 0) as [first Hfirst]; [lia|].
  destruct (base_difference_spec c (BaseIndex i) fraction (data m) first)
    as (new_mc & Hrun & Hall); [done| |done| |].
  - simpl. by rewrite Hget.
  - apply (inv_shape c Hinv); [done|]. by eapply list_elem_of_lookup_2.
  - eexists; split; [exact Hrun|]. simpl. symmetry.
    by eapply Forall2_length.
Qed.

(** X27. On a constructed cube, [apply_function] hands the volume of the
    property [data] to the function and pairs its value with the header of
    the map at [mapcube_index], which is map 0 when the keyword is absent;
    an exception of the function is passed on. *)
Theorem apply_function_on_volume {X : Type} args kwargs c
  (function : ndarray3 T -> result X) (mapcube_index : option Z) m :
  MapCubed_init args kwargs = Ok c ->
  py_getitem (_maps c) (default 0 mapcube_index) = Ok m ->
  exists vol,
    MapCubed_data c = Ok vol /\
    MapCubed_apply_function c function mapcube_index
    = match function vol with
      | Ok value => Ok {| reduced_value := value; reduced_meta := meta m |}
      | Raise e => Raise e
      end.
Proof.
  intros Hinv%MapCubed_init_inv Hm.
  assert (exists first, _maps c !! 0%nat = Some first) as [first Hfirst].
  { destruct (_maps c) as [|m0 maps]; [|by exists m0].
    by rewrite py_getitem_nil in Hm. }
  destruct (MapCubed_data_uniform c (shape (data first)).1
              (shape (data first)).2) as (vol & Hvol & _).
  { intros Hnil. by rewrite Hnil in Hfirst. }
  { intros m' Hm'. rewrite <-surjective_pairing.
    apply (inv_shape c Hinv); [done|]. by eapply list_elem_of_lookup_2. }
  exists vol. split; [done|]. unfold MapCubed_apply_function.
  rewrite Hvol. simpl. destruct (function vol) as [value|e]; [|done]. simpl.
  rewrite (aligned_meta c (inv_aligned c Hinv)), py_getitem_fmap.
  destruct mapcube_index as [i|]; simpl in Hm; by rewrite Hm.
Qed.

(** X28. On a constructed cube with at least one map, [std], [mean], [min]
    and [max] pair the numpy reduction of the volume of the property [data]
    with the header of the map at [mapcube_index], and raise [IndexError]
    when that index lies outside the cube. *)
Theorem reduce_on_volume {X : Type} args kwargs c
  (np_f : ndarray3 T -> X) (first : GenericMap T V) :
  MapCubed_init args kwargs = Ok c ->
  _maps c !! 0%nat = Some first ->
  exists vol,
    MapCubed_data c = Ok vol /\
    (forall (i : Z) m, py_getitem (_maps c) i = Ok m ->
       MapCubed_reduce np_f c i
       = Ok {| reduced_value := np_f vol; reduced_meta := meta m |}) /\
    (forall i : Z,
       i < - Z.of_nat (MapCubed_len c) \/ Z.of_nat (MapCubed_len c) <= i ->
       MapCubed_reduce np_f c i = Raise index_error).
Proof.
  intros Hinv%MapCubed_init_inv Hfirst.
  destruct (MapCubed_data_uniform c (shape (data first)).1
              (shape (data first)).2) as (vol & Hvol & _).
  { intros Hnil. by rewrite Hnil in Hfirst. }
  { intros m' Hm'. rewrite <-surjective_pairing.
    apply (inv_shape c Hinv); [done|]. by eapply list_elem_of_lookup_2. }
  exists vol. split; [done|]. unfold MapCubed_reduce, MapCubed_len.
  rewrite Hvol, (aligned_meta c (inv_aligned c Hinv)). simpl. split.
  - intros i m Hm. by rewrite py_getitem_fmap, Hm.
  - intros i Hi. by rewrite py_getitem_fmap, (py_getitem_outside _ _ Hi).
Qed.
End MoreDifferences.

(** * The further properties on the sample cubes *)

Lemma constructor_sorts_stably_witness :
  exists maps,
    expand_list [PyMap f2'; PyMap f1; PyMap f2] = PyMap <$> maps /\
    _maps cube_tie ≡ₚ maps /\
    sorted_by date (_maps cube_tie) /\
    forall z : Z,
      filter (fun m => date m = z) (_maps cube_tie)
      = filter (fun m => date m = z) maps.
Proof.
  apply (constructor_sorts_stably [PyMap f2'; PyMap f1; PyMap f2] ∅ cube_tie).
  reflexivity.
Defined.

Lemma construction_succeeds_iff_witness :
  (exists c, MapCubed_init args123 ∅ = Ok c) <->
  (exists maps,
     expand_list args123 = PyMap <$> maps /\
     uniform_shape maps /\ uniform_scale maps).
Proof. apply (construction_succeeds_iff args123 ∅). Defined.

Lemma reconstruction_is_identity_witness :
  MapCubed_of_list (_maps cube123) = Ok cube123.
Proof. apply (reconstruction_is_identity args123 ∅ cube123). reflexivity. Defined.

Lemma construction_ignores_input_order_witness :
  MapCubed_of_list [f3; f1; f2] = MapCubed_of_list [f1; f2; f3].
Proof.
  apply (construction_ignores_input_order [f3; f1; f2] [f1; f2; f3]).
  - apply (Permutation_cons_app [f1; f2] [] f3). reflexivity.
  - intros m1 m2 H1 H2 Hd.
    apply list_elem_of_In in H1. apply list_elem_of_In in H2.
    simpl in H1, H2.
    destruct H1 as [<-|[<-|[<-|[]]]]; destruct H2 as [<-|[<-|[<-|[]]]];
      first [reflexivity | vm_compute in Hd; discriminate].
Defined.

Lemma getitem_int_bounds_witness :
  (exists m, _maps cube123 !! Z.to_nat 1 = Some m /\
     MapCubed_getitem cube123 (KInt 1) = Ok (OneMap m)) /\
  (exists m,
     _maps cube123 !! Z.to_nat (-1 + Z.of_nat (MapCubed_len cube123)) = Some m /\
     MapCubed_getitem cube123 (KInt (-1)) = Ok (OneMap m)) /\
  MapCubed_getitem cube123 (KInt 3) = Raise index_error.
Proof.
  split_and!.
  - apply (proj1 (getitem_int_bounds cube123 1)). vm_compute. split; congruence.
  - apply (proj1 (proj2 (getitem_int_bounds cube123 (-1)))).
    vm_compute. split; congruence.
  - apply (proj2 (proj2 (getitem_int_bounds cube123 3))).
    right. vm_compute. congruence.
Defined.

Lemma first_and_last_by_date_witness :
  exists first last,
    MapCubed_getitem cube123 (KInt 0) = Ok (OneMap first) /\
    MapCubed_getitem cube123 (KInt (-1)) = Ok (OneMap last) /\
    date first <= date f2 <= date last.
Proof.
  apply (first_and_last_by_date args123 ∅ cube123 f2).
  - reflexivity.
  - apply (list_elem_of_lookup_2 _ 1%nat). reflexivity.
Defined.

Lemma forward_slice_keeps_order_witness :
  exists sub,
    py_getslice (_maps cube123) (Slice (Some 1) None None) = Ok sub /\
    sub `sublist_of` _maps cube123 /\
    MapCubed_getitem cube123 (KSlice (Slice (Some 1) None None))
    = Ok (SubCube {| _maps := sub; _meta := meta <$> sub |}).
Proof.
  apply (forward_slice_keeps_order args123 ∅ cube123 (Slice (Some 1) None None)).
  - reflexivity.
  - simpl. lia.
Defined.

Lemma slice_of_cube_witness :
  (exists c',
     MapCubed_getitem cube123 (KSlice (Slice None None (Some (-1))))
     = Ok (SubCube c') /\
     (forall m, m ∈ _maps c' -> m ∈ _maps cube123) /\
     sorted_by date (_maps c')) /\
  MapCubed_getitem cube123 (KSlice (Slice None None (Some 0)))
  = Raise (ValueError "slice step cannot be zero").
Proof.
  split.
  - refine (proj1 (slice_of_cube args123 ∅ cube123
                     (Slice None None (Some (-1))) _) _);
      [reflexivity|simpl; lia].
  - refine (proj2 (slice_of_cube args123 ∅ cube123
                     (Slice None None (Some 0)) _) _); reflexivity.
Defined.

Lemma date_is_ascending_witness :
  length (MapCubed_date cube123) = MapCubed_len cube123 /\
  (forall (i : nat) m, _maps cube123 !! i = Some m ->
     MapCubed_date cube123 !! i = Some (date m)) /\
  forall (i j : nat) (d1 d2 : Z),
    (i <= j)%nat -> MapCubed_date cube123 !! i = Some d1 ->
    MapCubed_date cube123 !! j = Some d2 -> d1 <= d2.
Proof. apply (date_is_ascending args123 ∅ cube123). reflexivity. Defined.

Lemma scale_of_every_map_witness :
  (forall m, m ∈ _maps cube123 -> MapCubed_scale cube123 = Ok (scale m)) /\
  (_maps cube0 = [] -> MapCubed_scale cube0 = Raise index_error).
Proof.
  split.
  - refine (proj1 (scale_of_every_map args123 ∅ cube123 _)). reflexivity.
  - refine (proj2 (scale_of_every_map [] ∅ cube0 _)). reflexivity.
Defined.

Lemma meta_missing_key_witness :
  MapCubed_meta cube_bare "exptime" = Raise (KeyError "exptime").
Proof.
  apply (meta_missing_key cube_bare "exptime" (meta bare)).
  - apply (list_elem_of_lookup_2 _ 1%nat). reflexivity.
  - reflexivity.
Defined.

Lemma meta_of_empty_cube_witness :
  MapCubed_meta cube0 "exptime" = Raise index_error.
Proof. apply (meta_of_empty_cube cube0 "exptime"). reflexivity. Defined.

Lemma all_meta_is_stored_meta_witness :
  MapCubed_all_meta cube123 = _meta cube123 /\
  length (_meta cube123) = MapCubed_len cube123.
Proof. apply (all_meta_is_stored_meta args123 ∅ cube123). reflexivity. Defined.

Lemma transforms_keep_length_witness :
  (MapCubed_len cube123 = MapCubed_len cube123 /\
   exists new_maps,
     Forall2 (fun m m' => @frame_submap Q hval sample_ops m (0, 1) (0, 1)
                          = Ok m')
       (_maps cube123) new_maps /\
     _maps cube123 ≡ₚ new_maps) /\
  (MapCubed_len cube23 = MapCubed_len cube23 /\
   exists new_maps,
     Forall2 (fun m m' => @frame_resample Q hval sample_ops m (1, 1)%nat
                          "linear" = Ok m')
       (_maps cube23) new_maps /\
     _maps cube23 ≡ₚ new_maps).
Proof.
  split.
  - apply (proj1 (transforms_keep_length (FO := sample_ops) cube123 cube123)
             (0, 1) (0, 1)).
    reflexivity.
  - apply (proj2 (proj2 (transforms_keep_length (FO := sample_ops)
                           cube23 cube23)) (1, 1)%nat "linear").
    reflexivity.
Defined.

Lemma transforms_propagate_errors_witness :
  MapCubed_submap (FO := picky_ops) cube123 (0, 1) (0, 1)
  = Raise (ValueError "range outside the map") /\
  MapCubed_superpixel (FO := picky_ops) cube123 (2, 2)%nat "sum"
  = Raise (ValueError "range outside the map").
Proof.
  split.
  - refine (proj1 (transforms_propagate_errors (FO := picky_ops) cube123
                     [f1] [f3] f2 (ValueError "range outside the map") _)
              (0, 1) (0, 1) _ _); [reflexivity| |reflexivity].
    intros a Ha. apply list_elem_of_In in Ha. simpl in Ha.
    destruct Ha as [<-|[]]. exists f1. reflexivity.
  - refine (proj1 (proj2 (transforms_propagate_errors (FO := picky_ops)
                            cube123 [f1] [f3] f2
                            (ValueError "range outside the map") _))
              (2, 2)%nat "sum" _ _); [reflexivity| |reflexivity].
    intros a Ha. apply list_elem_of_In in Ha. simpl in Ha.
    destruct Ha as [<-|[]]. exists f1. reflexivity.
Defined.

Lemma as_array_of_constructed_witness :
  all_maps_same_shape cube123 = true /\
  exists v,
    MapCubed_as_array cube123 = Ok (Stack3 v) /\
    shape3 v = ((shape (data f1)).1, (shape (data f1)).2, MapCubed_len cube123).
Proof.
  apply (as_array_of_constructed args123 ∅ cube123 f1); reflexivity.
Defined.

Lemma data_agrees_with_as_array_witness :
  exists v w,
    MapCubed_as_array cube123 = Ok (Stack3 v) /\
    MapCubed_data cube123 = Ok w /\
    shape3 v = shape3 w /\
    forall y x t : nat,
      (y < (shape (data f1)).1)%nat ->
      (x < (shape (data f1)).2)%nat ->
      (t < MapCubed_len cube123)%nat ->
      item3 v y x t = item3 w y x t.
Proof.
  apply (data_agrees_with_as_array args123 ∅ cube123 f1); reflexivity.
Defined.

Lemma empty_cube_has_no_volume_witness :
  MapCubed_as_array cube0 = Raise axis_error /\
  MapCubed_data cube0 = Raise index_error.
Proof. apply (empty_cube_has_no_volume cube0). reflexivity. Defined.

Lemma shrunk_fits (m : GenericMap Q hval) :
  m ∈ _maps shrunk -> fits_slice 2 2 m.
Proof.
  intros Hm. apply list_elem_of_In in Hm. simpl in Hm.
  destruct Hm as [<-|[<-|[<-|[]]]]; unfold fits_slice; simpl; auto.
Qed.

Lemma data_stretches_small_frames_witness :
  (exists v,
     MapCubed_data shrunk = Ok v /\
     shape3 v = ((shape (data f1)).1, (shape (data f1)).2, MapCubed_len shrunk) /\
     forall (t : nat) m, _maps shrunk !! t = Some m ->
       forall y x : nat, item3 v y x t = broadcast_item (data m) y x) /\
  MapCubed_as_array shrunk
  = Raise (ValueError "Not all maps have the same shape.").
Proof.
  split.
  - refine (proj1 (data_stretches_small_frames shrunk f1 _ _));
      [reflexivity|apply shrunk_fits].
  - refine (proj2 (data_stretches_small_frames shrunk f1 _ _) _);
      [reflexivity|apply shrunk_fits|].
    exists p3. split.
    + apply (list_elem_of_lookup_2 _ 2%nat). reflexivity.
    + simpl. discriminate.
Defined.

Lemma data_rejects_misfits_witness :
  MapCubed_data mutated = Raise broadcast_error.
Proof.
  apply (data_rejects_misfits mutated f1 g3).
  - reflexivity.
  - apply (list_elem_of_lookup_2 _ 2%nat). reflexivity.
  - unfold fits_slice. simpl. intros [[?|?] _]; discriminate.
Defined.

Lemma running_difference_beyond_length_witness :
  MapCubed_running_difference cube123 3 "bogus"
  = Ok {| _maps := []; _meta := [] |}.
Proof.
  apply (running_difference_beyond_length cube123 3 "bogus").
  unfold MapCubed_len. simpl. lia.
Defined.

Lemma running_difference_headers_witness :
  (exists c',
     MapCubed_running_difference cube123 (Z.of_nat 1) "ahead" = Ok c' /\
     _meta c' = drop 1 (_meta cube123)) /\
  (exists c',
     MapCubed_running_difference cube123 (Z.of_nat 1) "behind" = Ok c' /\
     _meta c' = take (MapCubed_len cube123 - 1) (_meta cube123)).
Proof.
  apply (running_difference_headers args123 ∅ cube123 1).
  - reflexivity.
  - unfold MapCubed_len. simpl. lia.
Defined.

Lemma unrecognised_keyword_raises_witness :
  MapCubed_running_difference cube123 (Z.of_nat 2) "bogus"
  = Raise keyword_error.
Proof.
  apply (unrecognised_keyword_raises args123 ∅ cube123 2 "bogus").
  - reflexivity.
  - unfold MapCubed_len. simpl. lia.
  - discriminate.
  - discriminate.
Defined.

Lemma negative_offset_raises_witness :
  MapCubed_running_difference cube123 (-1) "ahead" = Raise index_error.
Proof.
  apply (negative_offset_raises args123 ∅ cube123 (-1) "ahead").
  - reflexivity.
  - discriminate.
  - lia.
  - left. reflexivity.
Defined.

Lemma base_difference_index_errors_witness :
  MapCubed_base_difference cube123 (BaseIndex 3) false = Raise index_error /\
  MapCubed_base_difference cube0 (BaseMap f1) true = Raise index_error.
Proof.
  split.
  - apply (proj1 (base_difference_index_errors cube123 false) 3).
    right. unfold MapCubed_len. simpl. lia.
  - apply (proj2 (base_difference_index_errors cube0 true) (BaseMap f1)).
    reflexivity.
Defined.

Lemma base_difference_by_index_succeeds_witness :
  exists c',
    MapCubed_base_difference cube123 (BaseIndex (-1)) true = Ok c' /\
    MapCubed_len c' = MapCubed_len cube123.
Proof.
  apply (base_difference_by_index_succeeds args123 ∅ cube123 (-1) true).
  - reflexivity.
  - unfold MapCubed_len. simpl. lia.
Defined.

Lemma apply_function_on_volume_witness :
  exists vol,
    MapCubed_data cube123 = Ok vol /\
    MapCubed_apply_function cube123 corner_of_frame_1 (Some 1)
    = match corner_of_frame_1 vol with
      | Ok value => Ok {| reduced_value := value; reduced_meta := meta f2 |}
      | Raise e => Raise e
      end.
Proof.
  apply (apply_function_on_volume args123 ∅ cube123 corner_of_frame_1
           (Some 1) f2); reflexivity.
Defined.

Lemma reduce_on_volume_witness :
  exists vol,
    MapCubed_data cube123 = Ok vol /\
    (forall (i : Z) m, py_getitem (_maps cube123) i = Ok m ->
       MapCubed_reduce shape3 cube123 i
       = Ok {| reduced_value := shape3 vol; reduced_meta := meta m |}) /\
    (forall i : Z,
       i < - Z.of_nat (MapCubed_len cube123) \/
       Z.of_nat (MapCubed_len cube123) <= i ->
       MapCubed_reduce shape3 cube123 i = Raise index_error).
Proof.
  apply (reduce_on_volume args123 ∅ cube123 shape3 f1); reflexivity.
Defined.
